(** * Astronomy Observations API: the REST resource layer

    A shallow embedding of the request handlers of [resources.py] (the
    resources that [server.py] registers) and of the corresponding
    handlers of the single-file variant [astronomy_api.py], of the readers
    of [direct_api.py] and of the client library [astronomy_client.py],
    together with the properties of the CRUD, relationship and search
    endpoints.

    Modelling conventions.
    - A request body is the value of [request.get_json()]: absent, or a
      JSON object, kept as a finite map from keys to JSON values.
    - A table is a finite map from primary keys to rows.  A column holds
      the Python value that the handler assigned to the attribute; the
      storage engine's coercions between column types are not modelled.
    - Handlers run inside an ORM session.  Queries read the session's
      view, attribute assignments and [db.session.add]/[delete] change
      that view, and only [db.session.commit()] publishes it.  A request
      is served in a session of its own, which Flask-SQLAlchemy removes
      when the request ends: what was not committed is dropped.
    - [datetime.fromisoformat], [datetime.isoformat], [int] and the
      storage engine's ordering of timestamps belong to the Python
      runtime; they are taken as an interface ([PyLib]), with a small
      reference instance for concrete runs. *)

From Stdlib Require Import Ascii.
From stdpp Require Import gmap strings list.

#[local] Set Warnings "-register-all".

Open Scope string_scope.
Open Scope Z_scope.

(** ** JSON values and request payloads *)

Inductive json :=
  | JNull
  | JBool (b : bool)
  | JNum (n : Z)
  | JStr (s : string)
  | JArr (l : list json)
  | JObj (l : list (string * json)).

(** Python truthiness of a decoded JSON value. *)
Definition truthy (j : json) : bool :=
  match j with
  | JNull => false
  | JBool b => b
  | JNum n => negb (n =? 0)
  | JStr s => negb (String.eqb s "")
  | JArr l => match l with [] => false | _ => true end
  | JObj l => match l with [] => false | _ => true end
  end.

Abbreviation payload := (gmap string json).

(** [not json_data]: no body, or an empty object. *)
Definition py_not (json_data : option payload) : bool :=
  match json_data with
  | None => true
  | Some d => bool_decide (d = ∅)
  end.

(** ['k' in json_data] *)
Definition has (k : string) (json_data : payload) : bool :=
  bool_decide (is_Some (json_data !! k)).

(** [json_data.get('k')], and [json_data['k']] once the key is known to
    be there. *)
Definition get (k : string) (json_data : payload) : json :=
  default JNull (json_data !! k).

Arguments has : simpl never.
Arguments get : simpl never.

(** ** Responses *)

Record response := Response { body : json; status : Z }.

Definition message (s : string) : json := JObj [("message", JStr s)].

(** Flask-RESTful's answer to an exception that a handler lets escape. *)
Definition internal_server_error : response :=
  Response (message "Internal Server Error") 500.

Definition is_2xx (code : Z) : bool := (200 <=? code) && (code <? 300).

(** ** Persistence schema ([models.py]) *)

Record datetime := Datetime {
  year : Z; month : Z; day : Z;
  hour : Z; minute : Z; second : Z; microsecond : Z;
  utcoffset : option Z (* minutes east of UTC; None for a naive value *)
}.

Record Type_ := mkType { Type_name : json }.

Record Property := mkProperty { Property_name : json; valueType : json }.

Record Place := mkPlace {
  Place_name : json; lat : json; lon : json; alt : json; timezone : json
}.

Record Instrument := mkInstrument {
  Instrument_name : json; aperture : json; power : json
}.

Record Object := mkObject {
  Object_name : json; desination : json; Object_type : json; props : json
}.

Record Observation := mkObservation {
  Observation_object : json;
  Observation_place : json;
  Observation_instrument : json;
  Observation_datetime : option datetime;
  observation : json;
  prop1 : json;
  prop1value : json
}.

Record database := Database {
  types : gmap Z Type_;
  properities : gmap Z Property;
  places : gmap Z Place;
  instruments : gmap Z Instrument;
  objects : gmap Z Object;
  observations : gmap Z Observation
}.

Definition empty_database : database := Database ∅ ∅ ∅ ∅ ∅ ∅.

(** ** The Python runtime interface *)

Class PyLib := {
  fromisoformat : string -> option datetime;  (* None: ValueError *)
  isoformat : datetime -> string;
  datetime_le : datetime -> datetime -> bool; (* the storage order *)
  int : string -> option Z                    (* None: ValueError *)
}.

(** [s.replace('Z', '+00:00')] *)
Fixpoint replace_Z (s : string) : string :=
  match s with
  | EmptyString => EmptyString
  | String c rest =>
      if Ascii.eqb c "Z"%char then String.append "+00:00" (replace_Z rest)
      else String c (replace_Z rest)
  end.

(** ** Sessions and handlers *)

Record session := Session { committed : database; pending : database }.

Inductive step (A : Type) :=
  | Continue (a : A)
  | Return (r : response).
Arguments Continue {A} a.
Arguments Return {A} r.

Definition handler (A : Type) := session -> step A * session.

Definition ret {A} (a : A) : handler A := fun s => (Continue a, s).

Definition bind {A B} (m : handler A) (k : A -> handler B) : handler B :=
  fun s =>
    match m s with
    | (Continue a, s') => k a s'
    | (Return r, s') => (Return r, s')
    end.

(** [return body, code] *)
Definition respond {A} (b : json) (code : Z) : handler A :=
  fun s => (Return (Response b code), s).

(** An exception that nothing catches. *)
Definition raise {A} : handler A :=
  fun s => (Return internal_server_error, s).

Definition query {A} (f : database -> A) : handler A :=
  fun s => (Continue (f (pending s)), s).

Definition update (f : database -> database) : handler unit :=
  fun s => (Continue tt, Session (committed s) (f (pending s))).

(** [db.session.commit()] *)
Definition commit : handler unit :=
  fun s => (Continue tt, Session (pending s) (pending s)).

Notation "'let!' x ':=' m 'in' k" := (bind m (fun x => k))
  (at level 10, x name, m at level 100, k at level 200).
Notation "m ';;' k" := (bind m (fun _ => k))
  (at level 100, k at level 200, right associativity).

(** [if c: stmt] *)
Definition when (c : bool) (m : handler unit) : handler unit :=
  if c then m else ret tt.

Definition run (h : handler response) (s : session) : response * session :=
  match h s with
  | (Continue r, s') => (r, s')
  | (Return r, s') => (r, s')
  end.

(** One request: a fresh session over the stored state; at the end of the
    request the session is removed and the stored state is what was
    committed. *)
Definition serve (h : handler response) (db : database) : response * database :=
  let '(r, s) := run h (Session db db) in (r, committed s).

(** ** Table access *)

(** [Model.query.get(key)] for a key taken from the URL. *)
Definition query_get {R} (tbl : gmap Z R) (key : Z) : option R := tbl !! key.

(** [Model.query.get(value)] for a key taken from the body: only an
    integer names a row. *)
Definition query_get_json {R} (tbl : gmap Z R) (key : json) : option R :=
  match key with
  | JNum k => tbl !! k
  | _ => None
  end.

(** [Model.query.all()] *)
Definition query_all {R} (tbl : gmap Z R) : list (Z * R) := map_to_list tbl.

(** A column compared with an integer, as in [filter_by(col=id)]. *)
Definition column_is (col : json) (id : Z) : bool :=
  match col with
  | JNum n => n =? id
  | _ => false
  end.

(** [Model.query.filter_by(col=id).all()] *)
Definition filter_by {R} (col : R -> json) (id : Z) (tbl : gmap Z R) : list (Z * R) :=
  List.filter (fun kr => column_is (col kr.2) id) (query_all tbl).

(** [if rows:] on a result list. *)
Definition nonempty {A} (l : list A) : bool :=
  match l with [] => false | _ => true end.

(** The key an auto-increment column gives to the next row. *)
Definition max_key {R} (tbl : gmap Z R) : Z :=
  foldr (fun kr acc => Z.max kr.1 acc) 0 (map_to_list tbl).

Definition fresh_id {R} (tbl : gmap Z R) : Z := max_key tbl + 1.

(** The INSERT of a new object whose [id] attribute is [id]: [None] is
    left to auto-increment, an integer is used as it is and must be
    unused.  The result is the key and the new table, or [None] when the
    storage engine rejects the row. *)
Definition insert_row {R} (id : json) (row : R) (tbl : gmap Z R)
  : option (Z * gmap Z R) :=
  match id with
  | JNull => Some (fresh_id tbl, <[fresh_id tbl := row]> tbl)
  | JNum k =>
      match tbl !! k with
      | None => Some (k, <[k := row]> tbl)
      | Some _ => None
      end
  | _ => None
  end.

(** The six tables, each with its reader and writer on the database. *)
Record table (R : Type) := Table {
  rows : database -> gmap Z R;
  with_rows : gmap Z R -> database -> database
}.
Arguments rows {R} _ _.
Arguments with_rows {R} _ _ _.

Definition Types : table Type_ :=
  Table _ types
    (fun t db => Database t (properities db) (places db) (instruments db)
                          (objects db) (observations db)).
Definition Properties : table Property :=
  Table _ properities
    (fun t db => Database (types db) t (places db) (instruments db)
                          (objects db) (observations db)).
Definition Places : table Place :=
  Table _ places
    (fun t db => Database (types db) (properities db) t (instruments db)
                          (objects db) (observations db)).
Definition Instruments : table Instrument :=
  Table _ instruments
    (fun t db => Database (types db) (properities db) (places db) t
                          (objects db) (observations db)).
Definition Objects : table Object :=
  Table _ objects
    (fun t db => Database (types db) (properities db) (places db)
                          (instruments db) t (observations db)).
Definition Observations : table Observation :=
  Table _ observations
    (fun t db => Database (types db) (properities db) (places db)
                          (instruments db) (objects db) t).

(** [db.session.add(obj)], with the INSERT it leads to. *)
Definition session_add {R} (T : table R) (id : json) (row : R) : handler Z :=
  fun s =>
    match insert_row id row (rows T (pending s)) with
    | Some (k, t') =>
        (Continue k, Session (committed s) (with_rows T t' (pending s)))
    | None => raise s
    end.

(** [db.session.delete(obj)] *)
Definition session_delete {R} (T : table R) (id : Z) : handler unit :=
  update (fun db => with_rows T (delete id (rows T db)) db).

(** An attribute assignment on a loaded object: the session sees the
    changed row, and so does the handler's variable. *)
Definition assign {R} (T : table R) (id : Z) (row : R) : handler R :=
  update (fun db => with_rows T (<[id := row]> (rows T db)) db) ;; ret row.

Definition is_none {A} (o : option A) : bool :=
  match o with None => true | Some _ => false end.

(** * [resources.py] *)

Module Resources.
Section handlers.
Context `{PyLib}.

(** ** Type resources *)

Definition Type_dict (id : Z) (type_obj : Type_) : json :=
  JObj [("id", JNum id); ("name", Type_name type_obj)].

Definition TypeListResource_get : handler response :=
  let! types := query (fun db => query_all (rows Types db)) in
  respond (JArr (map (fun kr => Type_dict kr.1 kr.2) types)) 200.

Definition TypeListResource_post (json_data : option payload) : handler response :=
  if py_not json_data then respond (message "No input data provided") 400 else
  let json_data := default ∅ json_data in
  if negb (has "name" json_data) then respond (message "Name is required") 400 else
  let type_obj := mkType (get "name" json_data) in
  let id := if has "id" json_data then get "id" json_data else JNull in
  let! id := session_add Types id type_obj in
  commit ;;
  respond (Type_dict id type_obj) 201.

Definition TypeResource_get (type_id : Z) : handler response :=
  let! type_obj := query (fun db => query_get (rows Types db) type_id) in
  match type_obj with
  | None => respond (message "Type not found") 404
  | Some type_obj => respond (Type_dict type_id type_obj) 200
  end.

Definition TypeResource_put (type_id : Z) (json_data : option payload)
  : handler response :=
  let! type_obj := query (fun db => query_get (rows Types db) type_id) in
  match type_obj with
  | None => respond (message "Type not found") 404
  | Some type_obj =>
      if py_not json_data then respond (message "No input data provided") 400 else
      let json_data := default ∅ json_data in
      let! type_obj :=
        (if has "name" json_data
         then assign Types type_id (mkType (get "name" json_data))
         else ret type_obj) in
      commit ;;
      respond (Type_dict type_id type_obj) 200
  end.

Definition TypeResource_delete (type_id : Z) : handler response :=
  let! type_obj := query (fun db => query_get (rows Types db) type_id) in
  match type_obj with
  | None => respond (message "Type not found") 404
  | Some type_obj =>
      let! objects := query (fun db => filter_by Object_type type_id (rows Objects db)) in
      if nonempty objects
      then respond (message "Cannot delete type that is in use") 400
      else
        session_delete Types type_id ;;
        commit ;;
        respond (message "Type deleted successfully") 204
  end.

(** ** Property resources *)

Definition Property_dict (id : Z) (prop : Property) : json :=
  JObj [("id", JNum id); ("name", Property_name prop);
        ("valueType", valueType prop)].

Definition PropertyListResource_get : handler response :=
  let! properties := query (fun db => query_all (rows Properties db)) in
  respond (JArr (map (fun kr => Property_dict kr.1 kr.2) properties)) 200.

Definition PropertyListResource_post (json_data : option payload)
  : handler response :=
  if py_not json_data then respond (message "No input data provided") 400 else
  let json_data := default ∅ json_data in
  if negb (has "name" json_data) then respond (message "Name is required") 400 else
  if negb (has "valueType" json_data)
  then respond (message "Value type is required") 400 else
  let prop := mkProperty (get "name" json_data) (get "valueType" json_data) in
  let id := if has "id" json_data then get "id" json_data else JNull in
  let! id := session_add Properties id prop in
  commit ;;
  respond (Property_dict id prop) 201.

Definition PropertyResource_get (property_id : Z) : handler response :=
  let! prop := query (fun db => query_get (rows Properties db) property_id) in
  match prop with
  | None => respond (message "Property not found") 404
  | Some prop => respond (Property_dict property_id prop) 200
  end.

Definition PropertyResource_put (property_id : Z) (json_data : option payload)
  : handler response :=
  let! prop := query (fun db => query_get (rows Properties db) property_id) in
  match prop with
  | None => respond (message "Property not found") 404
  | Some prop =>
      if py_not json_data then respond (message "No input data provided") 400 else
      let json_data := default ∅ json_data in
      let! prop :=
        (if has "name" json_data
         then assign Properties property_id
                (mkProperty (get "name" json_data) (valueType prop))
         else ret prop) in
      let! prop :=
        (if has "valueType" json_data
         then assign Properties property_id
                (mkProperty (Property_name prop) (get "valueType" json_data))
         else ret prop) in
      commit ;;
      respond (Property_dict property_id prop) 200
  end.

Definition PropertyResource_delete (property_id : Z) : handler response :=
  let! prop := query (fun db => query_get (rows Properties db) property_id) in
  match prop with
  | None => respond (message "Property not found") 404
  | Some prop =>
      let! observations :=
        query (fun db => filter_by prop1 property_id (rows Observations db)) in
      if nonempty observations
      then respond (message "Cannot delete property that is in use") 400
      else
        session_delete Properties property_id ;;
        commit ;;
        respond (message "Property deleted successfully") 204
  end.

(** ** Place resources *)

Definition Place_dict (id : Z) (place : Place) : json :=
  JObj [("id", JNum id); ("name", Place_name place); ("lat", lat place);
        ("lon", lon place); ("alt", alt place); ("timezone", timezone place)].

Definition PlaceListResource_get : handler response :=
  let! places := query (fun db => query_all (rows Places db)) in
  respond (JArr (map (fun kr => Place_dict kr.1 kr.2) places)) 200.

Definition PlaceListResource_post (json_data : option payload) : handler response :=
  if py_not json_data then respond (message "No input data provided") 400 else
  let json_data := default ∅ json_data in
  if negb (has "name" json_data) then respond (message "Name is required") 400 else
  if negb (has "lat" json_data) then respond (message "Latitude is required") 400 else
  if negb (has "lon" json_data) then respond (message "Longitude is required") 400 else
  let place :=
    mkPlace (get "name" json_data) (get "lat" json_data) (get "lon" json_data)
            (get "alt" json_data) (get "timezone" json_data) in
  let! id := session_add Places JNull place in
  commit ;;
  respond (Place_dict id place) 201.

Definition PlaceResource_get (place_id : Z) : handler response :=
  let! place := query (fun db => query_get (rows Places db) place_id) in
  match place with
  | None => respond (message "Place not found") 404
  | Some place => respond (Place_dict place_id place) 200
  end.

Definition PlaceResource_put (place_id : Z) (json_data : option payload)
  : handler response :=
  let! place := query (fun db => query_get (rows Places db) place_id) in
  match place with
  | None => respond (message "Place not found") 404
  | Some place =>
      if py_not json_data then respond (message "No input data provided") 400 else
      let json_data := default ∅ json_data in
      let! place :=
        (if has "name" json_data
         then assign Places place_id
                (mkPlace (get "name" json_data) (lat place) (lon place)
                         (alt place) (timezone place))
         else ret place) in
      let! place :=
        (if has "lat" json_data
         then assign Places place_id
                (mkPlace (Place_name place) (get "lat" json_data) (lon place)
                         (alt place) (timezone place))
         else ret place) in
      let! place :=
        (if has "lon" json_data
         then assign Places place_id
                (mkPlace (Place_name place) (lat place) (get "lon" json_data)
                         (alt place) (timezone place))
         else ret place) in
      let! place :=
        (if has "alt" json_data
         then assign Places place_id
                (mkPlace (Place_name place) (lat place) (lon place)
                         (get "alt" json_data) (timezone place))
         else ret place) in
      let! place :=
        (if has "timezone" json_data
         then assign Places place_id
                (mkPlace (Place_name place) (lat place) (lon place)
                         (alt place) (get "timezone" json_data))
         else ret place) in
      commit ;;
      respond (Place_dict place_id place) 200
  end.

Definition PlaceResource_delete (place_id : Z) : handler response :=
  let! place := query (fun db => query_get (rows Places db) place_id) in
  match place with
  | None => respond (message "Place not found") 404
  | Some place =>
      let! observations :=
        query (fun db => filter_by Observation_place place_id (rows Observations db)) in
      if nonempty observations
      then respond (message "Cannot delete place that is in use") 400
      else
        session_delete Places place_id ;;
        commit ;;
        respond (message "Place deleted successfully") 204
  end.

(** ** Instrument resources *)

Definition Instrument_dict (id : Z) (instrument : Instrument) : json :=
  JObj [("id", JNum id); ("name", Instrument_name instrument);
        ("aperture", aperture instrument); ("power", power instrument)].

Definition InstrumentListResource_get : handler response :=
  let! instruments := query (fun db => query_all (rows Instruments db)) in
  respond (JArr (map (fun kr => Instrument_dict kr.1 kr.2) instruments)) 200.

Definition InstrumentListResource_post (json_data : option payload)
  : handler response :=
  if py_not json_data then respond (message "No input data provided") 400 else
  let json_data := default ∅ json_data in
  if negb (has "name" json_data) then respond (message "Name is required") 400 else
  let instrument :=
    mkInstrument (get "name" json_data) (get "aperture" json_data)
                 (get "power" json_data) in
  let id := if has "id" json_data then get "id" json_data else JNull in
  let! id := session_add Instruments id instrument in
  commit ;;
  respond (Instrument_dict id instrument) 201.

Definition InstrumentResource_get (instrument_id : Z) : handler response :=
  let! instrument := query (fun db => query_get (rows Instruments db) instrument_id) in
  match instrument with
  | None => respond (message "Instrument not found") 404
  | Some instrument => respond (Instrument_dict instrument_id instrument) 200
  end.

Definition InstrumentResource_put (instrument_id : Z) (json_data : option payload)
  : handler response :=
  let! instrument := query (fun db => query_get (rows Instruments db) instrument_id) in
  match instrument with
  | None => respond (message "Instrument not found") 404
  | Some instrument =>
      if py_not json_data then respond (message "No input data provided") 400 else
      let json_data := default ∅ json_data in
      let! instrument :=
        (if has "name" json_data
         then assign Instruments instrument_id
                (mkInstrument (get "name" json_data) (aperture instrument)
                              (power instrument))
         else ret instrument) in
      let! instrument :=
        (if has "aperture" json_data
         then assign Instruments instrument_id
                (mkInstrument (Instrument_name instrument)
                              (get "aperture" json_data) (power instrument))
         else ret instrument) in
      let! instrument :=
        (if has "power" json_data
         then assign Instruments instrument_id
                (mkInstrument (Instrument_name instrument)
                              (aperture instrument) (get "power" json_data))
         else ret instrument) in
      commit ;;
      respond (Instrument_dict instrument_id instrument) 200
  end.

Definition InstrumentResource_delete (instrument_id : Z) : handler response :=
  let! instrument := query (fun db => query_get (rows Instruments db) instrument_id) in
  match instrument with
  | None => respond (message "Instrument not found") 404
  | Some instrument =>
      let! observations :=
        query (fun db =>
                 filter_by Observation_instrument instrument_id (rows Observations db)) in
      if nonempty observations
      then respond (message "Cannot delete instrument that is in use") 400
      else
        session_delete Instruments instrument_id ;;
        commit ;;
        respond (message "Instrument deleted successfully") 204
  end.

(** ** Object resources *)

Definition Object_dict (id : Z) (obj : Object) : json :=
  JObj [("id", JNum id); ("name", Object_name obj);
        ("desination", desination obj); ("type", Object_type obj);
        ("props", props obj)].

Definition ObjectListResource_get : handler response :=
  let! objects := query (fun db => query_all (rows Objects db)) in
  respond (JArr (map (fun kr => Object_dict kr.1 kr.2) objects)) 200.

Definition ObjectListResource_post (json_data : option payload) : handler response :=
  if py_not json_data then respond (message "No input data provided") 400 else
  let json_data := default ∅ json_data in
  if negb (has "name" json_data) then respond (message "Name is required") 400 else
  if negb (has "type" json_data) then respond (message "Type is required") 400 else
  let! type_obj :=
    query (fun db => query_get_json (rows Types db) (get "type" json_data)) in
  if is_none type_obj then respond (message "Type not found") 400 else
  let obj :=
    mkObject (get "name" json_data) (get "desination" json_data)
             (get "type" json_data) (get "props" json_data) in
  let id := if has "id" json_data then get "id" json_data else JNull in
  let! id := session_add Objects id obj in
  commit ;;
  respond (Object_dict id obj) 201.

Definition ObjectResource_get (object_id : Z) : handler response :=
  let! obj := query (fun db => query_get (rows Objects db) object_id) in
  match obj with
  | None => respond (message "Object not found") 404
  | Some obj => respond (Object_dict object_id obj) 200
  end.

Definition ObjectResource_put (object_id : Z) (json_data : option payload)
  : handler response :=
  let! obj := query (fun db => query_get (rows Objects db) object_id) in
  match obj with
  | None => respond (message "Object not found") 404
  | Some obj =>
      if py_not json_data then respond (message "No input data provided") 400 else
      let json_data := default ∅ json_data in
      let! obj :=
        (if has "type" json_data
         then
           let! type_obj :=
             query (fun db => query_get_json (rows Types db) (get "type" json_data)) in
           if is_none type_obj then respond (message "Type not found") 400 else
           assign Objects object_id
             (mkObject (Object_name obj) (desination obj)
                       (get "type" json_data) (props obj))
         else ret obj) in
      let! obj :=
        (if has "name" json_data
         then assign Objects object_id
                (mkObject (get "name" json_data) (desination obj)
                          (Object_type obj) (props obj))
         else ret obj) in
      let! obj :=
        (if has "desination" json_data
         then assign Objects object_id
                (mkObject (Object_name obj) (get "desination" json_data)
                          (Object_type obj) (props obj))
         else ret obj) in
      let! obj :=
        (if has "props" json_data
         then assign Objects object_id
                (mkObject (Object_name obj) (desination obj)
                          (Object_type obj) (get "props" json_data))
         else ret obj) in
      commit ;;
      respond (Object_dict object_id obj) 200
  end.

Definition ObjectResource_delete (object_id : Z) : handler response :=
  let! obj := query (fun db => query_get (rows Objects db) object_id) in
  match obj with
  | None => respond (message "Object not found") 404
  | Some obj =>
      let! observations :=
        query (fun db => filter_by Observation_object object_id (rows Observations db)) in
      if nonempty observations
      then respond (message "Cannot delete object that is in use") 400
      else
        session_delete Objects object_id ;;
        commit ;;
        respond (message "Object deleted successfully") 204
  end.

(** ** Observation resources *)

Definition Observation_dict (id : Z) (obs : Observation) : json :=
  JObj [("id", JNum id); ("object", Observation_object obs);
        ("place", Observation_place obs);
        ("instrument", Observation_instrument obs);
        ("datetime",
         match Observation_datetime obs with
         | Some d => JStr (isoformat d)
         | None => JNull
         end);
        ("observation", observation obs);
        ("prop1", prop1 obs); ("prop1value", prop1value obs)].

(** [datetime.fromisoformat(value.replace('Z', '+00:00'))] under
    [try ... except Exception]: [None] when anything is raised, which a
    value that is not a string does at [.replace]. *)
Definition parse_datetime (value : json) : option datetime :=
  match value with
  | JStr s => fromisoformat (replace_Z s)
  | _ => None
  end.

Definition invalid_datetime : json :=
  message "Invalid datetime format. Use ISO format (YYYY-MM-DDTHH:MM:SS)".

Definition ObservationListResource_get : handler response :=
  let! observations := query (fun db => query_all (rows Observations db)) in
  respond (JArr (map (fun kr => Observation_dict kr.1 kr.2) observations)) 200.

Definition ObservationListResource_post (json_data : option payload)
  : handler response :=
  if py_not json_data then respond (message "No input data provided") 400 else
  let json_data := default ∅ json_data in
  if negb (has "object" json_data) then respond (message "Object is required") 400 else
  if negb (has "place" json_data) then respond (message "Place is required") 400 else
  if negb (has "instrument" json_data)
  then respond (message "Instrument is required") 400 else
  if negb (has "datetime" json_data)
  then respond (message "Datetime is required") 400 else
  if negb (has "observation" json_data)
  then respond (message "Observation text is required") 400 else
  let! obj :=
    query (fun db => query_get_json (rows Objects db) (get "object" json_data)) in
  if is_none obj then respond (message "Object not found") 400 else
  let! place :=
    query (fun db => query_get_json (rows Places db) (get "place" json_data)) in
  if is_none place then respond (message "Place not found") 400 else
  let! instrument :=
    query (fun db => query_get_json (rows Instruments db) (get "instrument" json_data)) in
  if is_none instrument then respond (message "Instrument not found") 400 else
  (if has "prop1" json_data && truthy (get "prop1" json_data)
   then
     let! prop :=
       query (fun db => query_get_json (rows Properties db) (get "prop1" json_data)) in
     if is_none prop then respond (message "Property not found") 400 else ret tt
   else ret tt) ;;
  match parse_datetime (get "datetime" json_data) with
  | None => respond invalid_datetime 400
  | Some observation_datetime =>
      let observation :=
        mkObservation (get "object" json_data) (get "place" json_data)
                      (get "instrument" json_data) (Some observation_datetime)
                      (get "observation" json_data) (get "prop1" json_data)
                      (get "prop1value" json_data) in
      let! id := session_add Observations JNull observation in
      commit ;;
      respond (Observation_dict id observation) 201
  end.

Definition ObservationResource_get (observation_id : Z) : handler response :=
  let! observation :=
    query (fun db => query_get (rows Observations db) observation_id) in
  match observation with
  | None => respond (message "Observation not found") 404
  | Some observation => respond (Observation_dict observation_id observation) 200
  end.

Definition with_object (v : json) (o : Observation) : Observation :=
  mkObservation v (Observation_place o) (Observation_instrument o)
                (Observation_datetime o) (observation o) (prop1 o) (prop1value o).
Definition with_place (v : json) (o : Observation) : Observation :=
  mkObservation (Observation_object o) v (Observation_instrument o)
                (Observation_datetime o) (observation o) (prop1 o) (prop1value o).
Definition with_instrument (v : json) (o : Observation) : Observation :=
  mkObservation (Observation_object o) (Observation_place o) v
                (Observation_datetime o) (observation o) (prop1 o) (prop1value o).
Definition with_datetime (v : option datetime) (o : Observation) : Observation :=
  mkObservation (Observation_object o) (Observation_place o)
                (Observation_instrument o) v (observation o) (prop1 o)
                (prop1value o).
Definition with_observation (v : json) (o : Observation) : Observation :=
  mkObservation (Observation_object o) (Observation_place o)
                (Observation_instrument o) (Observation_datetime o) v (prop1 o)
                (prop1value o).
Definition with_prop1 (v : json) (o : Observation) : Observation :=
  mkObservation (Observation_object o) (Observation_place o)
                (Observation_instrument o) (Observation_datetime o)
                (observation o) v (prop1value o).
Definition with_prop1value (v : json) (o : Observation) : Observation :=
  mkObservation (Observation_object o) (Observation_place o)
                (Observation_instrument o) (Observation_datetime o)
                (observation o) (prop1 o) v.

Definition ObservationResource_put (observation_id : Z)
    (json_data : option payload) : handler response :=
  let! observation :=
    query (fun db => query_get (rows Observations db) observation_id) in
  match observation with
  | None => respond (message "Observation not found") 404
  | Some observation =>
      if py_not json_data then respond (message "No input data provided") 400 else
      let json_data := default ∅ json_data in
      let! observation :=
        (if has "object" json_data
         then
           let! obj :=
             query (fun db => query_get_json (rows Objects db) (get "object" json_data)) in
           if is_none obj then respond (message "Object not found") 400 else
           assign Observations observation_id
             (with_object (get "object" json_data) observation)
         else ret observation) in
      let! observation :=
        (if has "place" json_data
         then
           let! place :=
             query (fun db => query_get_json (rows Places db) (get "place" json_data)) in
           if is_none place then respond (message "Place not found") 400 else
           assign Observations observation_id
             (with_place (get "place" json_data) observation)
         else ret observation) in
      let! observation :=
        (if has "instrument" json_data
         then
           let! instrument :=
             query (fun db =>
                      query_get_json (rows Instruments db) (get "instrument" json_data)) in
           if is_none instrument then respond (message "Instrument not found") 400 else
           assign Observations observation_id
             (with_instrument (get "instrument" json_data) observation)
         else ret observation) in
      let! observation :=
        (if has "prop1" json_data && truthy (get "prop1" json_data)
         then
           let! prop :=
             query (fun db => query_get_json (rows Properties db) (get "prop1" json_data)) in
           if is_none prop then respond (message "Property not found") 400 else
           assign Observations observation_id
             (with_prop1 (get "prop1" json_data) observation)
         else ret observation) in
      let! observation :=
        (if has "datetime" json_data
         then
           match parse_datetime (get "datetime" json_data) with
           | Some observation_datetime =>
               assign Observations observation_id
                 (with_datetime (Some observation_datetime) observation)
           | None => respond invalid_datetime 400
           end
         else ret observation) in
      let! observation :=
        (if has "observation" json_data
         then assign Observations observation_id
                (with_observation (get "observation" json_data) observation)
         else ret observation) in
      let! observation :=
        (if has "prop1value" json_data
         then assign Observations observation_id
                (with_prop1value (get "prop1value" json_data) observation)
         else ret observation) in
      commit ;;
      respond (Observation_dict observation_id observation) 200
  end.

Definition ObservationResource_delete (observation_id : Z) : handler response :=
  let! observation :=
    query (fun db => query_get (rows Observations db) observation_id) in
  match observation with
  | None => respond (message "Observation not found") 404
  | Some observation =>
      session_delete Observations observation_id ;;
      commit ;;
      respond (message "Observation deleted successfully") 204
  end.

(** ** Relationship resources *)

Definition ObjectObservationsResource_get (object_id : Z) : handler response :=
  let! obj := query (fun db => query_get (rows Objects db) object_id) in
  if is_none obj then respond (message "Object not found") 404 else
  let! observations :=
    query (fun db => filter_by Observation_object object_id (rows Observations db)) in
  respond (JArr (map (fun kr => Observation_dict kr.1 kr.2) observations)) 200.

Definition PlaceObservationsResource_get (place_id : Z) : handler response :=
  let! place := query (fun db => query_get (rows Places db) place_id) in
  if is_none place then respond (message "Place not found") 404 else
  let! observations :=
    query (fun db => filter_by Observation_place place_id (rows Observations db)) in
  respond (JArr (map (fun kr => Observation_dict kr.1 kr.2) observations)) 200.

Definition InstrumentObservationsResource_get (instrument_id : Z)
  : handler response :=
  let! instrument := query (fun db => query_get (rows Instruments db) instrument_id) in
  if is_none instrument then respond (message "Instrument not found") 404 else
  let! observations :=
    query (fun db =>
             filter_by Observation_instrument instrument_id (rows Observations db)) in
  respond (JArr (map (fun kr => Observation_dict kr.1 kr.2) observations)) 200.

(** ** Search resources *)

(** [if value:] on a query-string argument. *)
Definition given (arg : option string) : bool :=
  match arg with
  | Some s => negb (String.eqb s "")
  | None => false
  end.

(** [Observation.datetime >= bound] and [<= bound] as the storage engine
    decides them; a row without a timestamp satisfies neither. *)
Definition datetime_ge_bound (bound : datetime) (obs : Observation) : bool :=
  match Observation_datetime obs with
  | Some d => datetime_le bound d
  | None => false
  end.
Definition datetime_le_bound (bound : datetime) (obs : Observation) : bool :=
  match Observation_datetime obs with
  | Some d => datetime_le d bound
  | None => false
  end.

(** [query.filter(criterion)] *)
Definition filter_ (query criterion : Observation -> bool) : Observation -> bool :=
  fun obs => query obs && criterion obs.

Definition ObservationSearchResource_get (args : gmap string string)
  : handler response :=
  let start_date := args !! "start_date" in
  let end_date := args !! "end_date" in
  let object_id := args !! "object_id" in
  let place_id := args !! "place_id" in
  let instrument_id := args !! "instrument_id" in
  let query_ : Observation -> bool := fun _ => true in
  let! query_ :=
    (if given start_date
     then match fromisoformat (replace_Z (default "" start_date)) with
          | Some start_datetime => ret (filter_ query_ (datetime_ge_bound start_datetime))
          | None =>
              respond (message "Invalid start_date format. Use ISO format (YYYY-MM-DDTHH:MM:SS)") 400
          end
     else ret query_) in
  let! query_ :=
    (if given end_date
     then match fromisoformat (replace_Z (default "" end_date)) with
          | Some end_datetime => ret (filter_ query_ (datetime_le_bound end_datetime))
          | None =>
              respond (message "Invalid end_date format. Use ISO format (YYYY-MM-DDTHH:MM:SS)") 400
          end
     else ret query_) in
  let! query_ :=
    (if given object_id
     then match int (default "" object_id) with
          | Some object_id =>
              ret (filter_ query_ (fun obs => column_is (Observation_object obs) object_id))
          | None => respond (message "Invalid object_id format. Must be an integer") 400
          end
     else ret query_) in
  let! query_ :=
    (if given place_id
     then match int (default "" place_id) with
          | Some place_id =>
              ret (filter_ query_ (fun obs => column_is (Observation_place obs) place_id))
          | None => respond (message "Invalid place_id format. Must be an integer") 400
          end
     else ret query_) in
  let! query_ :=
    (if given instrument_id
     then match int (default "" instrument_id) with
          | Some instrument_id =>
              ret (filter_ query_
                     (fun obs => column_is (Observation_instrument obs) instrument_id))
          | None => respond (message "Invalid instrument_id format. Must be an integer") 400
          end
     else ret query_) in
  let! observations :=
    query (fun db => List.filter (fun kr => query_ kr.2) (query_all (rows Observations db))) in
  respond (JArr (map (fun kr => Observation_dict kr.1 kr.2) observations)) 200.

End handlers.
End Resources.

(** * [astronomy_api.py]

    The single-file variant validates bodies with marshmallow schemas and
    looks rows up with [get_or_404].  The handlers below are the ones the
    properties refer to. *)

Module AstronomyApi.

Inductive schema :=
  | TypeSchema | PropertySchema | PlaceSchema
  | InstrumentSchema | ObjectSchema | ObservationSchema.

(** [schema.load(json_data)]: [Some e] when it raises, [e] being the text
    of the exception; [None] when the body validates. *)
Class Marshmallow := { load : schema -> payload -> option string }.

Section handlers.
Context `{PyLib} `{Marshmallow}.

(** [schema.dump(obj)]: the fields the schema's [Meta] lists. *)
Definition type_schema_dump (id : Z) (type_obj : Type_) : json :=
  JObj [("id", JNum id); ("name", Type_name type_obj)].

Definition observation_schema_dump (id : Z) (obs : Observation) : json :=
  JObj [("id", JNum id); ("object", Observation_object obs);
        ("place", Observation_place obs);
        ("instrument", Observation_instrument obs);
        ("datetime",
         match Observation_datetime obs with
         | Some d => JStr (isoformat d)
         | None => JNull
         end);
        ("observation", observation obs);
        ("prop1", prop1 obs); ("prop1value", prop1value obs)].

(** The answer to [abort(404)], which [get_or_404] raises. *)
Definition not_found : json :=
  message "The requested URL was not found on the server. If you entered the URL manually please check your spelling and try again.".

(** [json_data.get('k', fallback)] *)
Definition get_or (k : string) (fallback : json) (json_data : payload) : json :=
  default fallback (json_data !! k).

Definition TypeListResource_post (json_data : option payload) : handler response :=
  if py_not json_data then respond (message "No input data provided") 400 else
  let json_data := default ∅ json_data in
  match load TypeSchema json_data with
  | Some e => respond (message e) 422
  | None =>
      let type_obj := mkType (get "name" json_data) in
      let! id := session_add Types JNull type_obj in
      commit ;;
      respond (type_schema_dump id type_obj) 201
  end.

Definition ObservationResource_put (observation_id : Z)
    (json_data : option payload) : handler response :=
  let! observation_obj :=
    query (fun db => query_get (rows Observations db) observation_id) in
  match observation_obj with
  | None => respond not_found 404
  | Some observation_obj =>
      if py_not json_data then respond (message "No input data provided") 400 else
      let json_data := default ∅ json_data in
      match load ObservationSchema json_data with
      | Some e => respond (message e) 422
      | None =>
          let! observation_obj :=
            (if has "object" json_data
             then
               let! object_obj :=
                 query (fun db =>
                          query_get_json (rows Objects db) (get "object" json_data)) in
               if is_none object_obj then respond (message "Invalid object ID") 400 else
               assign Observations observation_id
                 (Resources.with_object (get "object" json_data) observation_obj)
             else ret observation_obj) in
          let! observation_obj :=
            (if has "place" json_data
             then
               let! place_obj :=
                 query (fun db =>
                          query_get_json (rows Places db) (get "place" json_data)) in
               if is_none place_obj then respond (message "Invalid place ID") 400 else
               assign Observations observation_id
                 (Resources.with_place (get "place" json_data) observation_obj)
             else ret observation_obj) in
          let! observation_obj :=
            (if has "instrument" json_data
             then
               let! instrument_obj :=
                 query (fun db =>
                          query_get_json (rows Instruments db)
                                         (get "instrument" json_data)) in
               if is_none instrument_obj
               then respond (message "Invalid instrument ID") 400 else
               assign Observations observation_id
                 (Resources.with_instrument (get "instrument" json_data) observation_obj)
             else ret observation_obj) in
          let! observation_obj :=
            (if has "prop1" json_data && truthy (get "prop1" json_data)
             then
               let! property_obj :=
                 query (fun db =>
                          query_get_json (rows Properties db) (get "prop1" json_data)) in
               if is_none property_obj
               then respond (message "Invalid property ID") 400 else
               assign Observations observation_id
                 (Resources.with_prop1 (get "prop1" json_data) observation_obj)
             else ret observation_obj) in
          let! observation_obj :=
            (if has "datetime" json_data
             then
               match Resources.parse_datetime (get "datetime" json_data) with
               | Some observation_datetime =>
                   assign Observations observation_id
                     (Resources.with_datetime (Some observation_datetime)
                                              observation_obj)
               | None => respond Resources.invalid_datetime 400
               end
             else ret observation_obj) in
          let! observation_obj :=
            assign Observations observation_id
              (Resources.with_observation
                 (get_or "observation" (observation observation_obj) json_data)
                 observation_obj) in
          let! observation_obj :=
            assign Observations observation_id
              (Resources.with_prop1value
                 (get_or "prop1value" (prop1value observation_obj) json_data)
                 observation_obj) in
          commit ;;
          respond (observation_schema_dump observation_id observation_obj) 200
      end
  end.

(** The relationship endpoints list the matching rows without looking
    the parent up. *)
Definition ObjectObservationsResource_get (object_id : Z) : handler response :=
  let! observations :=
    query (fun db => filter_by Observation_object object_id (rows Observations db)) in
  respond (JArr (map (fun kr => observation_schema_dump kr.1 kr.2) observations)) 200.

Definition PlaceObservationsResource_get (place_id : Z) : handler response :=
  let! observations :=
    query (fun db => filter_by Observation_place place_id (rows Observations db)) in
  respond (JArr (map (fun kr => observation_schema_dump kr.1 kr.2) observations)) 200.

Definition InstrumentObservationsResource_get (instrument_id : Z)
  : handler response :=
  let! observations :=
    query (fun db =>
             filter_by Observation_instrument instrument_id (rows Observations db)) in
  respond (JArr (map (fun kr => observation_schema_dump kr.1 kr.2) observations)) 200.

End handlers.
End AstronomyApi.

(** * A reference instance of the runtime interface

    It reads and writes timestamps of the shape [YYYY-MM-DDTHH:MM:SS],
    optionally followed by an offset [+HH:MM] or [-HH:MM], reads plain
    decimal integers, and orders timestamps by their calendar fields. *)

Module PyRef.

Definition digit (c : ascii) : option Z :=
  let n := Z.of_nat (nat_of_ascii c) in
  if (48 <=? n) && (n <=? 57) then Some (n - 48) else None.

Fixpoint digits (acc : Z) (l : list ascii) : option Z :=
  match l with
  | [] => Some acc
  | c :: l =>
      match digit c with
      | Some d => digits (10 * acc + d) l
      | None => None
      end
  end.

Definition number (s : string) : option Z :=
  match String.list_ascii_of_string s with
  | [] => None
  | l => digits 0 l
  end.

Definition int (s : string) : option Z :=
  match s with
  | String "-" rest => Z.opp <$> number rest
  | String "+" rest => number rest
  | _ => number s
  end.

Definition is_leap (y : Z) : bool :=
  ((y mod 4 =? 0) && negb (y mod 100 =? 0)) || (y mod 400 =? 0).

Definition days_in_month (y m : Z) : Z :=
  if m =? 2 then (if is_leap y then 29 else 28)
  else if (m =? 4) || (m =? 6) || (m =? 9) || (m =? 11) then 30
  else 31.

Definition field (s : string) (start len : nat) : option Z :=
  number (String.substring start len s).

Definition char_is (s : string) (i : nat) (c : ascii) : bool :=
  match String.get i s with
  | Some c' => Ascii.eqb c c'
  | None => false
  end.

Definition offset (s : string) : option (option Z) :=
  if String.eqb s "" then Some None
  else if negb (Nat.eqb (String.length s) 6) || negb (char_is s 3 ":") then None
  else
    match field s 1 2, field s 4 2 with
    | Some h, Some m =>
        if (h <? 24) && (m <? 60) then
          if char_is s 0 "+" then Some (Some (60 * h + m))
          else if char_is s 0 "-" then Some (Some (- (60 * h + m)))
          else None
        else None
    | _, _ => None
    end.

Definition fromisoformat (s : string) : option datetime :=
  if negb (char_is s 4 "-" && char_is s 7 "-" && char_is s 13 ":" && char_is s 16 ":")
  then None
  else if Nat.ltb (String.length s) 19 then None
  else
    match field s 0 4, field s 5 2, field s 8 2,
          field s 11 2, field s 14 2, field s 17 2,
          offset (String.substring 19 (String.length s - 19) s) with
    | Some y, Some mo, Some d, Some h, Some mi, Some se, Some off =>
        if (1 <=? y) && (1 <=? mo) && (mo <=? 12) && (1 <=? d)
           && (d <=? days_in_month y mo) && (h <? 24) && (mi <? 60) && (se <? 60)
        then Some (Datetime y mo d h mi se 0 off)
        else None
    | _, _, _, _, _, _, _ => None
    end.

Definition digit_char (d : Z) : ascii := ascii_of_nat (Z.to_nat (48 + d mod 10)).

Definition pad2 (n : Z) : string :=
  String (digit_char (n / 10)) (String (digit_char n) "").

Definition pad4 (n : Z) : string :=
  String (digit_char (n / 1000)) (String (digit_char (n / 100)) (pad2 n)).

Definition isoformat (d : datetime) : string :=
  pad4 (year d) +:+ "-" +:+ pad2 (month d) +:+ "-" +:+ pad2 (day d) +:+ "T"
  +:+ pad2 (hour d) +:+ ":" +:+ pad2 (minute d) +:+ ":" +:+ pad2 (second d)
  +:+ match utcoffset d with
      | None => ""
      | Some off =>
          (if off <? 0 then "-" else "+")
          +:+ pad2 (Z.abs off / 60) +:+ ":" +:+ pad2 (Z.abs off mod 60)
      end.

Definition stamp (d : datetime) : list Z :=
  [year d; month d; day d; hour d; minute d; second d; microsecond d].

Fixpoint lex_le (a b : list Z) : bool :=
  match a, b with
  | x :: a', y :: b' => (x <? y) || ((x =? y) && lex_le a' b')
  | _, _ => true
  end.

Definition datetime_le (a b : datetime) : bool := lex_le (stamp a) (stamp b).

#[export] Instance pylib : PyLib := {
  fromisoformat := PyRef.fromisoformat;
  isoformat := PyRef.isoformat;
  datetime_le := PyRef.datetime_le;
  int := PyRef.int
}.

(** A schema check for [TypeSchema]: [name] is required and must be a
    string; the other schemas accept. *)
#[export] Instance marshmallow : AstronomyApi.Marshmallow := {
  AstronomyApi.load sch json_data :=
    match sch with
    | AstronomyApi.TypeSchema =>
        match json_data !! "name" with
        | Some (JStr _) => None
        | Some _ => Some "{'name': ['Not a valid string.']}"
        | None => Some "{'name': ['Missing data for required field.']}"
        end
    | _ => None
    end
}.

End PyRef.

(** * The routes of [server.py] *)

Module Server.
Section routes.
Context `{PyLib}.

Inductive entity :=
  | EType | EProperty | EPlace | EInstrument | EObject | EObservation.

(** [GET /api/<entity>/<id>] *)
Definition GET (e : entity) (id : Z) : handler response :=
  match e with
  | EType => Resources.TypeResource_get id
  | EProperty => Resources.PropertyResource_get id
  | EPlace => Resources.PlaceResource_get id
  | EInstrument => Resources.InstrumentResource_get id
  | EObject => Resources.ObjectResource_get id
  | EObservation => Resources.ObservationResource_get id
  end.

(** [PUT /api/<entity>/<id>] *)
Definition PUT (e : entity) (id : Z) (json_data : option payload)
  : handler response :=
  match e with
  | EType => Resources.TypeResource_put id json_data
  | EProperty => Resources.PropertyResource_put id json_data
  | EPlace => Resources.PlaceResource_put id json_data
  | EInstrument => Resources.InstrumentResource_put id json_data
  | EObject => Resources.ObjectResource_put id json_data
  | EObservation => Resources.ObservationResource_put id json_data
  end.

(** [DELETE /api/<entity>/<id>] *)
Definition DELETE (e : entity) (id : Z) : handler response :=
  match e with
  | EType => Resources.TypeResource_delete id
  | EProperty => Resources.PropertyResource_delete id
  | EPlace => Resources.PlaceResource_delete id
  | EInstrument => Resources.InstrumentResource_delete id
  | EObject => Resources.ObjectResource_delete id
  | EObservation => Resources.ObservationResource_delete id
  end.

(** [POST /api/<entity>] *)
Definition POST (e : entity) (json_data : option payload) : handler response :=
  match e with
  | EType => Resources.TypeListResource_post json_data
  | EProperty => Resources.PropertyListResource_post json_data
  | EPlace => Resources.PlaceListResource_post json_data
  | EInstrument => Resources.InstrumentListResource_post json_data
  | EObject => Resources.ObjectListResource_post json_data
  | EObservation => Resources.ObservationListResource_post json_data
  end.

(** [GET /api/<entity>] *)
Definition LIST (e : entity) : handler response :=
  match e with
  | EType => Resources.TypeListResource_get
  | EProperty => Resources.PropertyListResource_get
  | EPlace => Resources.PlaceListResource_get
  | EInstrument => Resources.InstrumentListResource_get
  | EObject => Resources.ObjectListResource_get
  | EObservation => Resources.ObservationListResource_get
  end.

End routes.
End Server.

(** * [direct_api.py]

    The readers that the web pages can use in place of HTTP requests, and
    the dispatcher [api_request] that stands in for the HTTP client. *)

Module DirectApi.
Section functions.
Context `{PyLib}.

Definition get_types (db : database) : json :=
  JArr (map (fun kr => JObj [("id", JNum kr.1); ("name", Type_name kr.2)])
            (query_all (types db))).

Definition get_properties (db : database) : json :=
  JArr (map (fun kr => JObj [("id", JNum kr.1); ("name", Property_name kr.2);
                             ("valueType", valueType kr.2)])
            (query_all (properities db))).

Definition get_places (db : database) : json :=
  JArr (map (fun kr => JObj [("id", JNum kr.1); ("name", Place_name kr.2);
                             ("lat", lat kr.2); ("lon", lon kr.2);
                             ("alt", alt kr.2); ("timezone", timezone kr.2)])
            (query_all (places db))).

Definition get_instruments (db : database) : json :=
  JArr (map (fun kr => JObj [("id", JNum kr.1); ("name", Instrument_name kr.2);
                             ("aperture", aperture kr.2); ("power", power kr.2)])
            (query_all (instruments db))).

Definition get_objects (db : database) : json :=
  JArr (map (fun kr => JObj [("id", JNum kr.1); ("name", Object_name kr.2);
                             ("desination", desination kr.2);
                             ("type", Object_type kr.2); ("props", props kr.2)])
            (query_all (objects db))).

Definition observation_dict (id : Z) (obs : Observation) : json :=
  JObj [("id", JNum id); ("object", Observation_object obs);
        ("place", Observation_place obs);
        ("instrument", Observation_instrument obs);
        ("datetime",
         match Observation_datetime obs with
         | Some d => JStr (isoformat d)
         | None => JNull
         end);
        ("observation", observation obs);
        ("prop1", prop1 obs); ("prop1value", prop1value obs)].

Definition get_observations (db : database) : json :=
  JArr (map (fun kr => observation_dict kr.1 kr.2) (query_all (observations db))).

(** The readers of one row answer [None] for an id that is not stored. *)
Definition get_type (type_id : Z) (db : database) : json :=
  match query_get (types db) type_id with
  | Some type_obj => JObj [("id", JNum type_id); ("name", Type_name type_obj)]
  | None => JNull
  end.

Definition get_property (property_id : Z) (db : database) : json :=
  match query_get (properities db) property_id with
  | Some prop =>
      JObj [("id", JNum property_id); ("name", Property_name prop);
            ("valueType", valueType prop)]
  | None => JNull
  end.

Definition get_place (place_id : Z) (db : database) : json :=
  match query_get (places db) place_id with
  | Some place =>
      JObj [("id", JNum place_id); ("name", Place_name place);
            ("lat", lat place); ("lon", lon place);
            ("alt", alt place); ("timezone", timezone place)]
  | None => JNull
  end.

Definition get_instrument (instrument_id : Z) (db : database) : json :=
  match query_get (instruments db) instrument_id with
  | Some instrument =>
      JObj [("id", JNum instrument_id); ("name", Instrument_name instrument);
            ("aperture", aperture instrument); ("power", power instrument)]
  | None => JNull
  end.

Definition get_object (object_id : Z) (db : database) : json :=
  match query_get (objects db) object_id with
  | Some obj =>
      JObj [("id", JNum object_id); ("name", Object_name obj);
            ("desination", desination obj);
            ("type", Object_type obj); ("props", props obj)]
  | None => JNull
  end.

Definition get_observation (observation_id : Z) (db : database) : json :=
  match query_get (observations db) observation_id with
  | Some obs => observation_dict observation_id obs
  | None => JNull
  end.

(** [MockResponse(data, status_code=200)] *)
Definition MockResponse (data : json) : response := Response data 200.

(** [endpoint.split('/')[-1]] *)
Fixpoint has_slash (s : string) : bool :=
  match s with
  | EmptyString => false
  | String c rest => Ascii.eqb c "/"%char || has_slash rest
  end.

Fixpoint last_segment (s : string) : string :=
  match s with
  | EmptyString => EmptyString
  | String c rest => if has_slash s then last_segment rest else s
  end.

(** One row, for the path of a row: [None] is the [ValueError] that
    [int] raises on a last segment that is not a number, which nothing
    catches. *)
Definition row_of (get_row : Z -> database -> json) (endpoint : string)
    (db : database) : option response :=
  match int (last_segment endpoint) with
  | Some id => Some (MockResponse (get_row id db))
  | None => None
  end.

Definition api_request (method endpoint : string) (db : database)
  : option response :=
  if String.eqb method "GET" then
    if String.eqb endpoint "/api/types" then Some (MockResponse (get_types db))
    else if String.prefix "/api/types/" endpoint then row_of get_type endpoint db
    else if String.eqb endpoint "/api/properties"
    then Some (MockResponse (get_properties db))
    else if String.prefix "/api/properties/" endpoint
    then row_of get_property endpoint db
    else if String.eqb endpoint "/api/places" then Some (MockResponse (get_places db))
    else if String.prefix "/api/places/" endpoint then row_of get_place endpoint db
    else if String.eqb endpoint "/api/instruments"
    then Some (MockResponse (get_instruments db))
    else if String.prefix "/api/instruments/" endpoint
    then row_of get_instrument endpoint db
    else if String.eqb endpoint "/api/objects" then Some (MockResponse (get_objects db))
    else if String.prefix "/api/objects/" endpoint then row_of get_object endpoint db
    else if String.eqb endpoint "/api/observations"
    then Some (MockResponse (get_observations db))
    else if String.prefix "/api/observations/" endpoint
    then row_of get_observation endpoint db
    else Some (Response (JArr []) 404)
  else Some (Response (JArr []) 404).

End functions.
End DirectApi.

(** * [astronomy_client.py]

    The client library, over a transport that hands the request to the
    resource of [server.py] that its path and method name.  A Python
    argument is the JSON value that [requests] encodes it to; [None] is
    [JNull]. *)

Module Client.
Section client.
Context `{PyLib}.

(** What a call of the client comes to: a value, the [Exception] that
    [_handle_response] raises, whose text is
    [f"API error ({status_code}): {error_msg}"], or the [AttributeError]
    of [.get] on an error body that is not an object. *)
Inductive outcome :=
  | Returned (value : json)
  | Raised (status_code : Z) (error_msg : json)
  | Escaped.

(** [body.get('message', 'Unknown error')] *)
Definition error_message (fields : list (string * json)) : json :=
  default (JStr "Unknown error")
          (snd <$> List.find (fun kv => String.eqb kv.1 "message") fields).

Definition _handle_response (response : response) : outcome :=
  if 400 <=? status response then
    match body response with
    | JObj fields => Raised (status response) (error_message fields)
    | _ => Escaped
    end
  else Returned (body response).

(** [x is not None] *)
Definition is_not_none (x : json) : bool :=
  match x with JNull => false | _ => true end.

(** [if x is not None: data[k] = x] *)
Definition set_if_given (k : string) (x : json) (data : payload) : payload :=
  if is_not_none x then <[k := x]> data else data.

(** A request, and [_handle_response] on its answer. *)
Definition call (h : handler response) (db : database) : outcome * database :=
  let '(response, db) := serve h db in (_handle_response response, db).

(** The six [delete_...] functions: [True] on 204. *)
Definition delete (e : Server.entity) (id : Z) (db : database)
  : outcome * database :=
  let '(response, db) := serve (Server.DELETE e id) db in
  if status response =? 204 then (Returned (JBool true), db)
  else (_handle_response response, db).

Definition delete_type := delete Server.EType.
Definition delete_property := delete Server.EProperty.
Definition delete_place := delete Server.EPlace.
Definition delete_instrument := delete Server.EInstrument.
Definition delete_object := delete Server.EObject.
Definition delete_observation := delete Server.EObservation.

Definition get_object (object_id : Z) : database -> outcome * database :=
  call (Server.GET Server.EObject object_id).

Definition create_object (name type_id designation props object_id : json)
  : database -> outcome * database :=
  let data : payload := <["name" := name]> (<["type" := type_id]> ∅) in
  let data := set_if_given "desination" designation data in
  let data := set_if_given "props" props data in
  let data := set_if_given "id" object_id data in
  call (Server.POST Server.EObject (Some data)).

Definition update_place (place_id : Z)
    (name latitude longitude altitude timezone : json)
  : database -> outcome * database :=
  let data : payload := ∅ in
  let data := set_if_given "name" name data in
  let data := set_if_given "lat" latitude data in
  let data := set_if_given "lon" longitude data in
  let data := set_if_given "alt" altitude data in
  let data := set_if_given "timezone" timezone data in
  call (Server.PUT Server.EPlace place_id (Some data)).

End client.
End Client.

(** * Vocabulary of the specification *)

(** The parent entities: those that another table refers to. *)
Inductive parent := PType | PProperty | PPlace | PInstrument | PObject.

Definition entity_of (p : parent) : Server.entity :=
  match p with
  | PType => Server.EType
  | PProperty => Server.EProperty
  | PPlace => Server.EPlace
  | PInstrument => Server.EInstrument
  | PObject => Server.EObject
  end.

(** A row with this id is stored. *)
Definition stored (e : Server.entity) (id : Z) (db : database) : Prop :=
  match e with
  | Server.EType => is_Some (types db !! id)
  | Server.EProperty => is_Some (properities db !! id)
  | Server.EPlace => is_Some (places db !! id)
  | Server.EInstrument => is_Some (instruments db !! id)
  | Server.EObject => is_Some (objects db !! id)
  | Server.EObservation => is_Some (observations db !! id)
  end.

(** Some dependent row refers to the parent: an Object to the Type, an
    Observation to the Property, Place, Instrument or Object. *)
Definition referenced (p : parent) (id : Z) (db : database) : Prop :=
  match p with
  | PType => exists k o, objects db !! k = Some o /\ Object_type o = JNum id
  | PProperty => exists k o, observations db !! k = Some o /\ prop1 o = JNum id
  | PPlace =>
      exists k o, observations db !! k = Some o /\ Observation_place o = JNum id
  | PInstrument =>
      exists k o, observations db !! k = Some o /\ Observation_instrument o = JNum id
  | PObject =>
      exists k o, observations db !! k = Some o /\ Observation_object o = JNum id
  end.

(** The filters of a search, as the specification names them: bounds on
    the timestamp and ids to match, each one optional. *)
Module Filters.
Record t := Make {
  start_date : option datetime;
  end_date : option datetime;
  object_id : option Z;
  place_id : option Z;
  instrument_id : option Z
}.
End Filters.

Section search_vocabulary.
Context `{PyLib}.

(** What a query-string argument supplies as a date bound: nothing when
    it is absent or empty, a timestamp when it parses; [None] when it is
    malformed. *)
Definition date_filter (arg : option string) : option (option datetime) :=
  if Resources.given arg
  then match fromisoformat (replace_Z (default "" arg)) with
       | Some d => Some (Some d)
       | None => None
       end
  else Some None.

Definition id_filter (arg : option string) : option (option Z) :=
  if Resources.given arg
  then match int (default "" arg) with
       | Some n => Some (Some n)
       | None => None
       end
  else Some None.


(** The same conjunction, decided. *)
Definition matches (f : Filters.t) (o : Observation) : bool :=
  match Filters.start_date f with
  | Some d => Resources.datetime_ge_bound d o
  | None => true
  end
  && match Filters.end_date f with
     | Some d => Resources.datetime_le_bound d o
     | None => true
     end
  && match Filters.object_id f with
     | Some n => column_is (Observation_object o) n
     | None => true
     end
  && match Filters.place_id f with
     | Some n => column_is (Observation_place o) n
     | None => true
     end
  && match Filters.instrument_id f with
     | Some n => column_is (Observation_instrument o) n
     | None => true
     end.

End search_vocabulary.

(** A field of a JSON object. *)
Definition json_field (k : string) (j : json) : option json :=
  match j with
  | JObj l => snd <$> List.find (fun kv => String.eqb kv.1 k) l
  | _ => None
  end.

Arguments json_field : simpl never.

(** The body of a creation request for an Observation is acceptable in
    all but its timestamp: the object, place and instrument it names are
    stored, it carries an observation text, and its [prop1], when given
    and truthy, names a stored Property. *)
Definition observation_refs_ok (db : database) (json_data : payload) : Prop :=
  is_Some (query_get_json (objects db) (get "object" json_data))
  /\ is_Some (query_get_json (places db) (get "place" json_data))
  /\ is_Some (query_get_json (instruments db) (get "instrument" json_data))
  /\ is_Some (json_data !! "observation")
  /\ (truthy (get "prop1" json_data) = true ->
      is_Some (query_get_json (properities db) (get "prop1" json_data))).

(** ** Creation payloads, in the words of the specification *)

Section creation_vocabulary.
Context `{PyLib}.

(** The fields of an entity, besides its id. *)
Definition fields (e : Server.entity) : list string :=
  match e with
  | Server.EType => ["name"]
  | Server.EProperty => ["name"; "valueType"]
  | Server.EPlace => ["name"; "lat"; "lon"; "alt"; "timezone"]
  | Server.EInstrument => ["name"; "aperture"; "power"]
  | Server.EObject => ["name"; "desination"; "type"; "props"]
  | Server.EObservation =>
      ["object"; "place"; "instrument"; "datetime"; "observation"; "prop1";
       "prop1value"]
  end.

Definition required (e : Server.entity) : list string :=
  match e with
  | Server.EType => ["name"]
  | Server.EProperty => ["name"; "valueType"]
  | Server.EPlace => ["name"; "lat"; "lon"]
  | Server.EInstrument => ["name"]
  | Server.EObject => ["name"; "type"]
  | Server.EObservation => ["object"; "place"; "instrument"; "datetime"; "observation"]
  end.


(** The same, with the timestamp as the server renders it: the ISO format
    of the instant that the payload's text was parsed to. *)
Definition rendered (k : string) (P : payload) : json :=
  if String.eqb k "datetime"
  then match Resources.parse_datetime (get k P) with
       | Some d => JStr (isoformat d)
       | None => JNull
       end
  else get k P.

Definition representation (e : Server.entity) (id : Z) (P : payload) : json :=
  JObj (("id", JNum id)
        :: map (fun k => (k, match e with
                             | Server.EObservation => rendered k P
                             | _ => get k P
                             end)) (fields e)).

(** The id the server generates for the next row of an entity. *)
Definition generated_id (e : Server.entity) (db : database) : Z :=
  match e with
  | Server.EType => fresh_id (types db)
  | Server.EProperty => fresh_id (properities db)
  | Server.EPlace => fresh_id (places db)
  | Server.EInstrument => fresh_id (instruments db)
  | Server.EObject => fresh_id (objects db)
  | Server.EObservation => fresh_id (observations db)
  end.

(** Place and Observation always take a generated id; the others take
    the payload's id when it carries an integer one. *)
Definition assigned_id (e : Server.entity) (db : database) (P : payload) : Z :=
  match e with
  | Server.EPlace | Server.EObservation => generated_id e db
  | _ => match P !! "id" with
         | Some (JNum k) => k
         | _ => generated_id e db
         end
  end.

(** A valid creation payload: the required fields are there, every
    reference resolves, the timestamp parses, and a client-supplied id is
    an integer that no stored row has. *)
Definition valid (e : Server.entity) (db : database) (P : payload) : Prop :=
  Forall (fun k => is_Some (P !! k)) (required e)
  /\ match e with
     | Server.EPlace | Server.EObservation => True
     | _ => match P !! "id" with
            | None | Some JNull => True
            | Some (JNum k) => ~ stored e k db
            | Some _ => False
            end
     end
  /\ match e with
     | Server.EObject => is_Some (query_get_json (types db) (get "type" P))
     | Server.EObservation =>
         observation_refs_ok db P
         /\ is_Some (Resources.parse_datetime (get "datetime" P))
     | _ => True
     end.


End creation_vocabulary.

(** ** Update payloads, in the words of the specification *)

Section update_vocabulary.
Context `{PyLib}.




(** A reference that the body carries resolves. *)
Definition resolves {R} (tbl : gmap Z R) (k : string) (P : payload) : Prop :=
  has k P = true -> is_Some (query_get_json tbl (get k P)).

(** A body that an update accepts: the row exists, the body is not empty,
    every reference it carries resolves ([prop1] only when truthy) and its
    timestamp, if any, parses. *)
Definition valid_update (e : Server.entity) (id : Z) (db : database)
    (P : payload) : Prop :=
  stored e id db /\ P <> ∅
  /\ match e with
     | Server.EObject => resolves (types db) "type" P
     | Server.EObservation =>
         resolves (objects db) "object" P
         /\ resolves (places db) "place" P
         /\ resolves (instruments db) "instrument" P
         /\ (truthy (get "prop1" P) = true -> resolves (properities db) "prop1" P)
         /\ (has "datetime" P = true
             -> is_Some (Resources.parse_datetime (get "datetime" P)))
     | _ => True
     end.

(** A reference that the body carries names no stored row. *)
Definition dangles {R} (tbl : gmap Z R) (k : string) (P : payload) : Prop :=
  has k P = true /\ query_get_json tbl (get k P) = None.

Definition dangling (e : Server.entity) (db : database) (P : payload) : Prop :=
  match e with
  | Server.EObject => dangles (types db) "type" P
  | Server.EObservation =>
      dangles (objects db) "object" P
      \/ dangles (places db) "place" P
      \/ dangles (instruments db) "instrument" P
      \/ (truthy (get "prop1" P) = true /\ dangles (properities db) "prop1" P)
  | _ => False
  end.

(** The row an accepted update of an Observation leaves, field by field. *)
Definition put_row (P : payload) (row : Observation) : Observation :=
  Resources.with_prop1value
    (if has "prop1value" P then get "prop1value" P else prop1value row)
    (Resources.with_observation
       (if has "observation" P then get "observation" P else observation row)
       (Resources.with_datetime
          (if has "datetime" P
           then Resources.parse_datetime (get "datetime" P)
           else Observation_datetime row)
          (Resources.with_prop1
             (if has "prop1" P && truthy (get "prop1" P)
              then get "prop1" P else prop1 row)
             (Resources.with_instrument
                (if has "instrument" P
                 then get "instrument" P else Observation_instrument row)
                (Resources.with_place
                   (if has "place" P then get "place" P else Observation_place row)
                   (Resources.with_object
                      (if has "object" P
                       then get "object" P else Observation_object row)
                      row)))))).

End update_vocabulary.

(** ** Commits, early returns and answers *)

(** A computation that never commits. *)
Definition quiet {A} (m : handler A) : Prop :=
  forall s, committed (m s).2 = committed s.

(** A handler that answers outside 2xx only when it has not committed. *)
Definition atomic (h : handler response) : Prop :=
  forall s, is_2xx (status (run h s).1) = false ->
            committed (run h s).2 = committed s.

(** Every early return of a computation satisfies [Q]. *)
Definition returns {A} (Q : response -> Prop) (m : handler A) : Prop :=
  forall s r s', m s = (Return r, s') -> Q r.

(** Every answer of a handler satisfies [Q]. *)
Definition answers (Q : response -> Prop) (h : handler response) : Prop :=
  forall s, Q (run h s).1.

(** The answers of [resources.py]: the status is one of 200, 201, 204,
    400, 404 and 500, and outside 200 and 201 the body is an object with
    the single field [message]. *)
Definition resource_answer (r : response) : Prop :=
  (status r = 200 \/ status r = 201)
  \/ (In (status r) [204; 400; 404; 500] /\ exists text, body r = message text).

(** The session of a request in which the Observation [id] is loaded
    and currently reads [o]. *)
Definition loaded (id : Z) (db : database) (o : Observation) : session :=
  Session db (with_rows Observations (<[id := o]> (observations db)) db).

(** ** Stores after a write *)

Section write_vocabulary.
Context `{PyLib}.

(** The rows that the update handlers leave, field by field. *)
Definition put_type_row (P : payload) (row : Type_) : Type_ :=
  mkType (if has "name" P then get "name" P else Type_name row).

Definition put_property_row (P : payload) (row : Property) : Property :=
  mkProperty (if has "name" P then get "name" P else Property_name row)
             (if has "valueType" P then get "valueType" P else valueType row).

Definition put_place_row (P : payload) (row : Place) : Place :=
  mkPlace (if has "name" P then get "name" P else Place_name row)
          (if has "lat" P then get "lat" P else lat row)
          (if has "lon" P then get "lon" P else lon row)
          (if has "alt" P then get "alt" P else alt row)
          (if has "timezone" P then get "timezone" P else timezone row).

Definition put_instrument_row (P : payload) (row : Instrument) : Instrument :=
  mkInstrument (if has "name" P then get "name" P else Instrument_name row)
               (if has "aperture" P then get "aperture" P else aperture row)
               (if has "power" P then get "power" P else power row).

Definition put_object_row (P : payload) (row : Object) : Object :=
  mkObject (if has "name" P then get "name" P else Object_name row)
           (if has "desination" P then get "desination" P else desination row)
           (if has "type" P then get "type" P else Object_type row)
           (if has "props" P then get "props" P else props row).

(** The store after an accepted update of the row [id]. *)
Definition updated (e : Server.entity) (id : Z) (db : database) (P : payload)
  : database :=
  match e with
  | Server.EType => with_rows Types (alter (put_type_row P) id (types db)) db
  | Server.EProperty =>
      with_rows Properties (alter (put_property_row P) id (properities db)) db
  | Server.EPlace => with_rows Places (alter (put_place_row P) id (places db)) db
  | Server.EInstrument =>
      with_rows Instruments (alter (put_instrument_row P) id (instruments db)) db
  | Server.EObject => with_rows Objects (alter (put_object_row P) id (objects db)) db
  | Server.EObservation =>
      with_rows Observations (alter (put_row P) id (observations db)) db
  end.

(** The store after the creation of an entity from a valid payload: one
    row more, under the assigned id. *)
Definition created (e : Server.entity) (db : database) (P : payload) : database :=
  let id := assigned_id e db P in
  match e with
  | Server.EType => with_rows Types (<[id := mkType (get "name" P)]> (types db)) db
  | Server.EProperty =>
      with_rows Properties
        (<[id := mkProperty (get "name" P) (get "valueType" P)]> (properities db)) db
  | Server.EPlace =>
      with_rows Places
        (<[id := mkPlace (get "name" P) (get "lat" P) (get "lon" P) (get "alt" P)
                         (get "timezone" P)]> (places db)) db
  | Server.EInstrument =>
      with_rows Instruments
        (<[id := mkInstrument (get "name" P) (get "aperture" P) (get "power" P)]>
           (instruments db)) db
  | Server.EObject =>
      with_rows Objects
        (<[id := mkObject (get "name" P) (get "desination" P) (get "type" P)
                          (get "props" P)]> (objects db)) db
  | Server.EObservation =>
      with_rows Observations
        (<[id := mkObservation (get "object" P) (get "place" P) (get "instrument" P)
                   (Resources.parse_datetime (get "datetime" P))
                   (get "observation" P) (get "prop1" P) (get "prop1value" P)]>
           (observations db)) db
  end.

(** The store after the removal of the row [id]. *)
Definition deleted (e : Server.entity) (id : Z) (db : database) : database :=
  match e with
  | Server.EType => with_rows Types (delete id (types db)) db
  | Server.EProperty => with_rows Properties (delete id (properities db)) db
  | Server.EPlace => with_rows Places (delete id (places db)) db
  | Server.EInstrument => with_rows Instruments (delete id (instruments db)) db
  | Server.EObject => with_rows Objects (delete id (objects db)) db
  | Server.EObservation => with_rows Observations (delete id (observations db)) db
  end.

(** The test that a delete handler makes before it removes a row: some
    row of the dependent table carries the id. *)
Definition in_use (e : Server.entity) (id : Z) (db : database) : bool :=
  match e with
  | Server.EType => nonempty (filter_by Object_type id (objects db))
  | Server.EProperty => nonempty (filter_by prop1 id (observations db))
  | Server.EPlace => nonempty (filter_by Observation_place id (observations db))
  | Server.EInstrument =>
      nonempty (filter_by Observation_instrument id (observations db))
  | Server.EObject => nonempty (filter_by Observation_object id (observations db))
  | Server.EObservation => false
  end.

(** ** Referential integrity *)

Definition object_ok (db : database) (o : Object) : Prop :=
  is_Some (query_get_json (types db) (Object_type o)).

Definition observation_ok (db : database) (o : Observation) : Prop :=
  is_Some (query_get_json (objects db) (Observation_object o))
  /\ is_Some (query_get_json (places db) (Observation_place o))
  /\ is_Some (query_get_json (instruments db) (Observation_instrument o))
  /\ (truthy (prop1 o) = true -> is_Some (query_get_json (properities db) (prop1 o))).

(** Every reference of every stored row names a stored row. *)
Definition integrity (db : database) : Prop :=
  (forall k o, objects db !! k = Some o -> object_ok db o)
  /\ (forall k o, observations db !! k = Some o -> observation_ok db o).

(** ** Tables as lenses *)

Definition lawful {R} (T : table R) : Prop :=
  (forall t db, rows T (with_rows T t db) = t)
  /\ (forall t t' db, with_rows T t (with_rows T t' db) = with_rows T t db)
  /\ (forall db, with_rows T (rows T db) db = db).

(** The session of a request in which the row [id] of the table [T] is
    loaded and currently reads [o]. *)
Definition loaded_in {R} (T : table R) (id : Z) (db : database) (o : R) : session :=
  Session db (with_rows T (<[id := o]> (rows T db)) db).

End write_vocabulary.

(** ** Answers and paths *)

(** The messages of the answers to a request on a single row. *)
Definition not_found_message (e : Server.entity) : string :=
  match e with
  | Server.EType => "Type not found"
  | Server.EProperty => "Property not found"
  | Server.EPlace => "Place not found"
  | Server.EInstrument => "Instrument not found"
  | Server.EObject => "Object not found"
  | Server.EObservation => "Observation not found"
  end.

Definition in_use_message (p : parent) : string :=
  match p with
  | PType => "Cannot delete type that is in use"
  | PProperty => "Cannot delete property that is in use"
  | PPlace => "Cannot delete place that is in use"
  | PInstrument => "Cannot delete instrument that is in use"
  | PObject => "Cannot delete object that is in use"
  end.

Definition deleted_message (e : Server.entity) : string :=
  match e with
  | Server.EType => "Type deleted successfully"
  | Server.EProperty => "Property deleted successfully"
  | Server.EPlace => "Place deleted successfully"
  | Server.EInstrument => "Instrument deleted successfully"
  | Server.EObject => "Object deleted successfully"
  | Server.EObservation => "Observation deleted successfully"
  end.

(** Every key that names a row of a parent table of [db] names one of
    [db']. *)
Definition keeps_keys (db db' : database) : Prop :=
  (forall v, is_Some (query_get_json (types db) v)
             -> is_Some (query_get_json (types db') v))
  /\ (forall v, is_Some (query_get_json (properities db) v)
                -> is_Some (query_get_json (properities db') v))
  /\ (forall v, is_Some (query_get_json (places db) v)
                -> is_Some (query_get_json (places db') v))
  /\ (forall v, is_Some (query_get_json (instruments db) v)
                -> is_Some (query_get_json (instruments db') v))
  /\ (forall v, is_Some (query_get_json (objects db) v)
                -> is_Some (query_get_json (objects db') v)).

(** The message that a creation answers when a required key is missing. *)
Definition required_message (k : string) : string :=
  if String.eqb k "name" then "Name is required"
  else if String.eqb k "valueType" then "Value type is required"
  else if String.eqb k "lat" then "Latitude is required"
  else if String.eqb k "lon" then "Longitude is required"
  else if String.eqb k "type" then "Type is required"
  else if String.eqb k "object" then "Object is required"
  else if String.eqb k "place" then "Place is required"
  else if String.eqb k "instrument" then "Instrument is required"
  else if String.eqb k "datetime" then "Datetime is required"
  else "Observation text is required".

(** The first of the keys that the payload does not carry. *)
Definition first_missing (keys : list string) (P : payload) : option string :=
  List.find (fun k => negb (has k P)) keys.

(** ** Paths *)

Definition listing_path (e : Server.entity) : string :=
  match e with
  | Server.EType => "/api/types"
  | Server.EProperty => "/api/properties"
  | Server.EPlace => "/api/places"
  | Server.EInstrument => "/api/instruments"
  | Server.EObject => "/api/objects"
  | Server.EObservation => "/api/observations"
  end.

(** [value if value is not None else old] *)
Definition given_or (value old : json) : json :=
  if Client.is_not_none value then value else old.

(** * A seeded database

    The fixtures of [tests.py], with fixed timestamps and with one more
    Type, which no Object refers to. *)

Module Seed.

Definition at_ (y mo d h : Z) : option datetime :=
  Some (Datetime y mo d h 0 0 0 None).

Definition db : database := {|
  types := <[1 := mkType (JStr "Galaxy")]> (<[2 := mkType (JStr "Planet")]>
             (<[3 := mkType (JStr "Nebula")]> ∅));
  properities :=
    <[1 := mkProperty (JStr "Magnitude") (JStr "float")]>
      (<[2 := mkProperty (JStr "Distance") (JStr "string")]> ∅);
  places :=
    <[1 := mkPlace (JStr "Royal Observatory Greenwich") (JStr "51.4778")
                   (JStr "0.0015") (JStr "45m") (JStr "Europe/London")]>
      (<[2 := mkPlace (JStr "Mauna Kea Observatory") (JStr "19.8208")
                      (JStr "-155.4681") (JStr "4205m") (JStr "Pacific/Honolulu")]> ∅);
  instruments :=
    <[1 := mkInstrument (JStr "Celestron NexStar 8SE") (JStr "203.2mm")
                        (JStr "2032mm")]>
      (<[2 := mkInstrument (JStr "Subaru Telescope") (JStr "8.2m")
                           (JStr "Primary f/1.83, Final f/12.2")]> ∅);
  objects :=
    <[1 := mkObject (JStr "Andromeda Galaxy") (JStr "M31") (JNum 1) JNull]>
      (<[2 := mkObject (JStr "Mars") (JStr "Sol d") (JNum 2) JNull]> ∅);
  observations :=
    <[1 := mkObservation (JNum 1) (JNum 1) (JNum 1) (at_ 2025 1 3 21)
             (JStr "Clear spiral structure visible.") (JNum 1) (JStr "3.4")]>
      (<[2 := mkObservation (JNum 2) (JNum 2) (JNum 2) (at_ 2025 1 2 22)
               (JStr "Polar ice caps visible.") (JNum 2) (JStr "78.34 million km")]>
         (<[3 := mkObservation (JNum 1) (JNum 2) (JNum 2) (at_ 2025 1 1 20)
                  (JStr "Dust lanes and central core.") (JNum 1) (JStr "3.2")]> ∅))
|}.

(** Request bodies used in the concrete runs. *)
Definition posted_observation : payload :=
  {[ "object" := JNum 2; "place" := JNum 1; "instrument" := JNum 1;
     "datetime" := JStr "2025-01-01T00:00:00Z";
     "observation" := JStr "New test observation";
     "prop1" := JNum 1; "prop1value" := JStr "4.2" ]}.

Definition posted_type : payload := {[ "id" := JNum 7; "name" := JStr "Star" ]}.


Definition updated_observation : payload :=
  {[ "observation" := JStr "Updated observation text"; "prop1value" := JStr "3.8" ]}.

Definition misplaced_observation : payload := {[ "object" := JNum 2; "place" := JNum 999 ]}.

Definition numeric_name : payload := {[ "name" := JNum 123 ]}.

End Seed.

(** * Properties *)

Ltac unfold_handlers :=
  unfold serve, run,
    Server.GET, Server.PUT, Server.DELETE, Server.POST, Server.LIST,
    Resources.TypeResource_get, Resources.TypeResource_put,
    Resources.TypeResource_delete, Resources.TypeListResource_post,
    Resources.TypeListResource_get,
    Resources.PropertyResource_get, Resources.PropertyResource_put,
    Resources.PropertyResource_delete, Resources.PropertyListResource_post,
    Resources.PropertyListResource_get,
    Resources.PlaceResource_get, Resources.PlaceResource_put,
    Resources.PlaceResource_delete, Resources.PlaceListResource_post,
    Resources.PlaceListResource_get,
    Resources.InstrumentResource_get, Resources.InstrumentResource_put,
    Resources.InstrumentResource_delete, Resources.InstrumentListResource_post,
    Resources.InstrumentListResource_get,
    Resources.ObjectResource_get, Resources.ObjectResource_put,
    Resources.ObjectResource_delete, Resources.ObjectListResource_post,
    Resources.ObjectListResource_get,
    Resources.ObservationResource_get, Resources.ObservationResource_put,
    Resources.ObservationResource_delete, Resources.ObservationListResource_post,
    Resources.ObservationListResource_get,
    Resources.ObjectObservationsResource_get,
    Resources.PlaceObservationsResource_get,
    Resources.InstrumentObservationsResource_get,
    session_add, session_delete, assign, when, update, query, commit, respond,
    raise, ret, bind, query_get in *.

(** Case analysis on the test that a handler evaluates next. *)
Ltac next_test :=
  match goal with
  | |- context [match ?x with _ => _ end] =>
      lazymatch x with
      | context [match _ with _ => _ end] => fail
      | _ => destruct x eqn:?
      end
  end.

Section properties.
Context `{PyLib}.

Lemma column_is_true (col : json) (id : Z) :
  column_is col id = true <-> col = JNum id.
Proof.
  destruct col; simpl; try (split; [discriminate | intros [=]]).
  rewrite Z.eqb_eq. split; [intros -> | intros [=]]; congruence.
Qed.

Lemma filter_by_nonempty {R} (col : R -> json) (id : Z) (tbl : gmap Z R) :
  nonempty (filter_by col id tbl) = true
  <-> exists k r, tbl !! k = Some r /\ col r = JNum id.
Proof.
  unfold filter_by, query_all. split.
  - destruct (List.filter _ _) as [|[k r] l] eqn:E; [discriminate|]. intros _.
    assert (Hin : In (k, r) (List.filter (fun kr => column_is (col kr.2) id)
                                         (map_to_list tbl))).
    { rewrite E. now left. }
    apply filter_In in Hin as [Hin Hc]. exists k, r. split.
    + apply elem_of_map_to_list. now apply list_elem_of_In.
    + now apply column_is_true.
  - intros (k & r & Hk & Hc).
    assert (Hin : In (k, r) (List.filter (fun kr => column_is (col kr.2) id)
                                         (map_to_list tbl))).
    { apply filter_In. split.
      - apply list_elem_of_In. now apply elem_of_map_to_list.
      - now apply column_is_true. }
    destruct (List.filter _ _); [destruct Hin | reflexivity].
Qed.

Lemma filter_by_empty {R} (col : R -> json) (id : Z) (tbl : gmap Z R) :
  nonempty (filter_by col id tbl) = false
  <-> ~ exists k r, tbl !! k = Some r /\ col r = JNum id.
Proof.
  rewrite <- filter_by_nonempty. destruct (nonempty _); split; congruence.
Qed.

(** C1. For each parent entity and each id, DELETE answers 404 when no
    such row is stored; 400 when a dependent row refers to it, and the row
    is still there for a later GET; 204 when nothing refers to it, and a
    later GET answers 404. *)
Theorem delete_parent (p : parent) (id : Z) (db : database) :
  let r := serve (Server.DELETE (entity_of p) id) db in
  (~ stored (entity_of p) id db -> status r.1 = 404 /\ r.2 = db)
  /\ (stored (entity_of p) id db -> referenced p id db ->
      status r.1 = 400 /\ r.2 = db
      /\ status (serve (Server.GET (entity_of p) id) r.2).1 = 200)
  /\ (stored (entity_of p) id db -> ~ referenced p id db ->
      status r.1 = 204
      /\ status (serve (Server.GET (entity_of p) id) r.2).1 = 404).
Proof.
  destruct p; simpl; unfold_handlers; simpl;
    match goal with |- context [?m !! id] => destruct (m !! id) eqn:E end; simpl;
    try (match goal with |- context [nonempty ?l] => destruct (nonempty l) eqn:F end;
         simpl; [apply filter_by_nonempty in F | apply filter_by_empty in F]);
    repeat split; intros; simpl; rewrite ?E, ?lookup_delete_eq; simpl;
    try reflexivity; try tauto;
    try (match goal with Hs : is_Some None |- _ => destruct Hs as [? [=]] end);
    try (match goal with Hn : ~ is_Some (Some _) |- _ => exfalso; apply Hn; eauto end).
Qed.

(** ** Commits and early returns *)

Lemma quiet_ret {A} (a : A) : quiet (ret a).
Proof. intros s. reflexivity. Qed.

Lemma quiet_respond {A} (b : json) (code : Z) : quiet (@respond A b code).
Proof. intros s. reflexivity. Qed.

Lemma quiet_raise {A} : quiet (@raise A).
Proof. intros s. reflexivity. Qed.

Lemma quiet_query {A} (f : database -> A) : quiet (query f).
Proof. intros s. reflexivity. Qed.

Lemma quiet_update (f : database -> database) : quiet (update f).
Proof. intros s. reflexivity. Qed.

Lemma quiet_bind {A B} (m : handler A) (k : A -> handler B) :
  quiet m -> (forall a, quiet (k a)) -> quiet (bind m k).
Proof.
  intros Hm Hk s. unfold bind. specialize (Hm s).
  destruct (m s) as [[a|r] s']; simpl in *; [|assumption].
  rewrite Hk. assumption.
Qed.

Lemma quiet_session_add {R} (T : table R) (id : json) (row : R) :
  quiet (session_add T id row).
Proof.
  intros s. unfold session_add.
  destruct (insert_row id row (rows T (pending s))) as [[k t]|]; reflexivity.
Qed.

Lemma quiet_session_delete {R} (T : table R) (id : Z) :
  quiet (session_delete T id).
Proof. intros s. reflexivity. Qed.

Lemma quiet_assign {R} (T : table R) (id : Z) (row : R) : quiet (assign T id row).
Proof. intros s. reflexivity. Qed.

Lemma atomic_quiet (h : handler response) : quiet h -> atomic h.
Proof.
  intros Hq s _. unfold run. specialize (Hq s).
  destruct (h s) as [[r|r] s']; assumption.
Qed.

Lemma atomic_bind {A} (m : handler A) (k : A -> handler response) :
  quiet m -> (forall a, atomic (k a)) -> atomic (bind m k).
Proof.
  intros Hm Hk s. unfold run, bind. specialize (Hm s).
  destruct (m s) as [[a|r] s']; simpl in *.
  - intros Hs. specialize (Hk a s'). unfold run in Hk.
    destruct (k a s') as [[r|r] s'']; simpl in *; rewrite Hk; auto.
  - intros _. assumption.
Qed.

Lemma atomic_commit (b : json) (code : Z) :
  is_2xx code = true -> atomic (commit ;; respond b code).
Proof. intros Hc s. simpl. congruence. Qed.

Lemma serve_atomic (h : handler response) (db : database) :
  atomic h ->
  is_2xx (status (serve h db).1) = false -> (serve h db).2 = db.
Proof.
  intros Ha. specialize (Ha (Session db db)). unfold serve.
  destruct (run h (Session db db)) as [r s]. simpl in *. exact Ha.
Qed.

Create HintDb quiet.
#[local] Hint Resolve quiet_ret quiet_respond quiet_raise quiet_query quiet_update
  quiet_session_add quiet_session_delete quiet_assign : quiet.

Ltac atomicity :=
  cbv zeta;
  repeat first
    [ progress intros
    | apply atomic_commit; reflexivity
    | match goal with
      | |- atomic (if ?b then _ else _) => destruct b
      | |- quiet (if ?b then _ else _) => destruct b
      | |- atomic (match ?o with _ => _ end) => destruct o
      | |- quiet (match ?o with _ => _ end) => destruct o
      end
    | apply atomic_bind
    | apply quiet_bind
    | solve [auto with quiet]
    | apply atomic_quiet ].

Lemma POST_atomic (e : Server.entity) (json_data : option payload) :
  atomic (Server.POST e json_data).
Proof.
  destruct e; unfold Server.POST, Resources.TypeListResource_post,
    Resources.PropertyListResource_post, Resources.PlaceListResource_post,
    Resources.InstrumentListResource_post, Resources.ObjectListResource_post,
    Resources.ObservationListResource_post; atomicity.
Qed.

Lemma PUT_atomic (e : Server.entity) (id : Z) (json_data : option payload) :
  atomic (Server.PUT e id json_data).
Proof.
  destruct e; unfold Server.PUT, Resources.TypeResource_put,
    Resources.PropertyResource_put, Resources.PlaceResource_put,
    Resources.InstrumentResource_put, Resources.ObjectResource_put,
    Resources.ObservationResource_put; atomicity.
Qed.

Lemma DELETE_atomic (e : Server.entity) (id : Z) :
  atomic (Server.DELETE e id).
Proof.
  destruct e; unfold Server.DELETE, Resources.TypeResource_delete,
    Resources.PropertyResource_delete, Resources.PlaceResource_delete,
    Resources.InstrumentResource_delete, Resources.ObjectResource_delete,
    Resources.ObservationResource_delete; atomicity.
Qed.

Lemma has_lookup (k : string) (json_data : payload) (v : json) :
  json_data !! k = Some v -> has k json_data = true /\ get k json_data = v.
Proof.
  intros Hk. unfold has, get. rewrite Hk. split; [|reflexivity].
  apply bool_decide_eq_true. eauto.
Qed.

Lemma py_not_lookup (k : string) (json_data : payload) (v : json) :
  json_data !! k = Some v -> py_not (Some json_data) = false.
Proof.
  intros Hk. simpl. apply bool_decide_eq_false. intros ->.
  rewrite lookup_empty in Hk. discriminate.
Qed.

(** C5. A create, update or delete that answers outside 2xx leaves the
    stored state as it was.  In particular a POST of an Object whose type
    names no stored Type answers 400 and stores nothing, and a PUT of an
    Observation whose datetime does not parse answers 400 and leaves the
    stored state untouched, whatever other fields the body carries. *)
Theorem failed_write_keeps_store :
  (forall (e : Server.entity) (id : Z) (json_data : option payload) (db : database),
      (is_2xx (status (serve (Server.POST e json_data) db).1) = false ->
       (serve (Server.POST e json_data) db).2 = db)
      /\ (is_2xx (status (serve (Server.PUT e id json_data) db).1) = false ->
          (serve (Server.PUT e id json_data) db).2 = db)
      /\ (is_2xx (status (serve (Server.DELETE e id) db).1) = false ->
          (serve (Server.DELETE e id) db).2 = db))
  /\ (forall (json_data : payload) (t : json) (db : database),
         json_data !! "type" = Some t ->
         query_get_json (types db) t = None ->
         status (serve (Server.POST Server.EObject (Some json_data)) db).1 = 400
         /\ (serve (Server.POST Server.EObject (Some json_data)) db).2 = db)
  /\ (forall (id : Z) (json_data : payload) (v : json) (db : database),
         stored Server.EObservation id db ->
         json_data !! "datetime" = Some v ->
         Resources.parse_datetime v = None ->
         status (serve (Server.PUT Server.EObservation id (Some json_data)) db).1 = 400
         /\ (serve (Server.PUT Server.EObservation id (Some json_data)) db).2 = db).
Proof.
  split; [|split].
  - intros e id json_data db. repeat split.
    + apply serve_atomic, POST_atomic.
    + apply serve_atomic, PUT_atomic.
    + apply serve_atomic, DELETE_atomic.
  - intros json_data t db Ht Hnone.
    assert (Hs : status (serve (Server.POST Server.EObject (Some json_data)) db).1 = 400).
    { destruct (has_lookup _ _ _ Ht) as [Hh Hg].
      pose proof (py_not_lookup _ _ _ Ht) as Hn.
      unfold_handlers. rewrite Hn. simpl. rewrite Hh, Hg. simpl.
      destruct (has "name" json_data); simpl; [|reflexivity].
      rewrite Hnone. reflexivity. }
    split; [exact Hs|]. apply serve_atomic; [apply POST_atomic|]. rewrite Hs. reflexivity.
  - intros id json_data v db [o Ho] Hd Hp.
    assert (Hs : status (serve (Server.PUT Server.EObservation id (Some json_data)) db).1 = 400).
    { destruct (has_lookup _ _ _ Hd) as [Hh Hg].
      pose proof (py_not_lookup _ _ _ Hd) as Hn.
      unfold_handlers. simpl in Ho. rewrite Hn. simpl. rewrite Ho, Hh, Hg, Hp.
      repeat (next_test; simpl; try reflexivity). }
    split; [exact Hs|]. apply serve_atomic; [apply PUT_atomic|]. rewrite Hs. reflexivity.
Qed.

(** ** Search *)

Lemma filter_rows_spec {R} (q : Z * R -> bool) (tbl : gmap Z R) (k : Z) (r : R) :
  In (k, r) (List.filter q (query_all tbl))
  <-> tbl !! k = Some r /\ q (k, r) = true.
Proof.
  rewrite filter_In. unfold query_all.
  rewrite <- list_elem_of_In, elem_of_map_to_list. reflexivity.
Qed.

Lemma filter_rows_NoDup {R} (q : Z * R -> bool) (tbl : gmap Z R) :
  List.NoDup (List.filter q (query_all tbl)).
Proof.
  apply List.NoDup_filter, NoDup_ListNoDup, NoDup_map_to_list.
Qed.





Lemma search_query (args : gmap string string) (f : Filters.t) (db : database) :
  date_filter (args !! "start_date") = Some (Filters.start_date f) ->
  date_filter (args !! "end_date") = Some (Filters.end_date f) ->
  id_filter (args !! "object_id") = Some (Filters.object_id f) ->
  id_filter (args !! "place_id") = Some (Filters.place_id f) ->
  id_filter (args !! "instrument_id") = Some (Filters.instrument_id f) ->
  serve (Resources.ObservationSearchResource_get args) db
  = (Response
       (JArr (map (fun kr => Resources.Observation_dict kr.1 kr.2)
                  (List.filter (fun kr => matches f kr.2)
                               (query_all (observations db))))) 200,
     db).
Proof.
  unfold date_filter, id_filter. intros Hs He Ho Hp Hi.
  unfold Resources.ObservationSearchResource_get. unfold_handlers. cbv zeta.
  destruct f as [sd ed oi pi ii]; simpl in *.
  repeat (case_match; simplify_eq); simpl;
    apply (f_equal (fun l => (Response (JArr (map _ l)) 200, db)));
    apply List.filter_ext; intros [k o];
    unfold Resources.filter_, matches; simpl; rewrite ?andb_true_r; reflexivity.
Qed.


(** ** Timestamps *)



Lemma is_none_false {A} (o : option A) : is_Some o -> is_none o = false.
Proof. intros [a ->]. reflexivity. Qed.

Lemma has_true (k : string) (json_data : payload) :
  is_Some (json_data !! k) -> has k json_data = true.
Proof. intros Hk. now apply bool_decide_eq_true. Qed.


(** ** Creation *)

Lemma max_key_bound {R} (tbl : gmap Z R) (k : Z) :
  is_Some (tbl !! k) -> k <= max_key tbl.
Proof.
  intros [r Hr]. apply elem_of_map_to_list in Hr. unfold max_key.
  induction (map_to_list tbl) as [|[k' r'] l IH]; simpl.
  - inversion Hr.
  - apply elem_of_cons in Hr as [[= <- <-]|Hr]; [lia|].
    specialize (IH Hr). lia.
Qed.

Lemma fresh_id_unused {R} (tbl : gmap Z R) : tbl !! fresh_id tbl = None.
Proof.
  destruct (tbl !! fresh_id tbl) as [r|] eqn:E; [|reflexivity].
  assert (Hb : fresh_id tbl <= max_key tbl) by (apply max_key_bound; eauto).
  unfold fresh_id in Hb. lia.
Qed.

Lemma generated_id_unused (e : Server.entity) (db : database) :
  ~ stored e (generated_id e db) db.
Proof.
  destruct e; simpl; rewrite fresh_id_unused; apply is_Some_None.
Qed.

Lemma py_not_Forall (ks : list string) (k : string) (P : payload) :
  Forall (fun k => is_Some (P !! k)) (k :: ks) -> py_not (Some P) = false.
Proof.
  intros Hf. apply Forall_cons in Hf as [[v Hv] _]. eapply py_not_lookup, Hv.
Qed.


(** The id that [insert_row] settles on for the payload's id attribute. *)
Lemma insert_client_id {R} (tbl : gmap Z R) (P : payload) (row : R) :
  match P !! "id" with
  | None | Some JNull => True
  | Some (JNum k) => ~ is_Some (tbl !! k)
  | Some _ => False
  end ->
  insert_row (if has "id" P then get "id" P else JNull) row tbl
  = let id := match P !! "id" with
              | Some (JNum k) => k
              | _ => fresh_id tbl
              end in
    Some (id, <[id := row]> tbl).
Proof.
  unfold has, get. destruct (P !! "id") as [[| | k | | |]|] eqn:E; simpl;
    try tauto; try reflexivity.
  intros Hk. destruct (tbl !! k); [exfalso; eauto | reflexivity].
Qed.


(** ** Update *)

Lemma py_not_nonempty (P : payload) : P <> ∅ -> py_not (Some P) = false.
Proof. intros Hne. simpl. now apply bool_decide_eq_false. Qed.

Lemma dangles_nonempty {R} (tbl : gmap Z R) (k : string) (P : payload) :
  dangles tbl k P -> P <> ∅.
Proof.
  intros [Hh _] ->. unfold has in Hh. rewrite lookup_empty in Hh.
  apply bool_decide_eq_true in Hh. destruct Hh as [? [=]].
Qed.

Lemma dangling_nonempty (e : Server.entity) (db : database) (P : payload) :
  dangling e db P -> P <> ∅.
Proof.
  destruct e; simpl; try tauto.
  - apply dangles_nonempty.
  - intros [Hd|[Hd|[Hd|[_ Hd]]]]; eapply dangles_nonempty, Hd.
Qed.

Lemma dangling_put_400 (e : Server.entity) (id : Z) (db : database) (P : payload) :
  stored e id db -> dangling e db P ->
  status (serve (Server.PUT e id (Some P)) db).1 = 400.
Proof.
  intros Hst Hd. pose proof (py_not_nonempty _ (dangling_nonempty _ _ _ Hd)) as Hn.
  destruct e; simpl in Hd; try tauto; destruct Hst as [row Hrow]; simpl in Hrow.
  - destruct Hd as [Hh Hq].
    unfold_handlers. rewrite Hn. simpl. rewrite Hrow, Hh. simpl. rewrite Hq. reflexivity.
  - unfold_handlers. rewrite Hn. simpl. rewrite Hrow.
    unfold dangles in Hd.
    repeat (next_test; simpl; try reflexivity).
    all: exfalso;
      destruct Hd as [[Hh Hq]|[[Hh Hq]|[[Hh Hq]|(Ht & Hh & Hq)]]];
      try discriminate Hh; rewrite ?Hq, ?Ht, ?Hh in *; simpl in *; congruence.
Qed.

(** *** The steps of [ObservationResource.put] *)

Section put_observation.
Context (id : Z) (db : database).

Lemma loaded_start (row : Observation) :
  observations db !! id = Some row -> Session db db = loaded id db row.
Proof.
  intros Hrow. unfold loaded. simpl. rewrite (insert_id _ _ _ Hrow).
  destruct db; reflexivity.
Qed.

Lemma bind_continue {A B} (m : handler A) (k : A -> handler B) s a s' :
  m s = (Continue a, s') -> bind m k s = k a s'.
Proof. intros Hm. unfold bind. rewrite Hm. reflexivity. Qed.

Lemma loaded_assign (o o' : Observation) :
  assign Observations id o' (loaded id db o) = (Continue o', loaded id db o').
Proof.
  unfold assign, update, bind, ret, loaded. simpl.
  rewrite insert_insert_eq. reflexivity.
Qed.

Lemma put_field {V} (c : bool) (v : V) (f : V -> Observation -> Observation)
    (g : Observation -> V) (o : Observation) :
  (forall o, f (g o) o = o) ->
  (if c then assign Observations id (f v o) else ret o) (loaded id db o)
  = (Continue (f (if c then v else g o) o), loaded id db (f (if c then v else g o) o)).
Proof.
  intros Hfg. destruct c; [apply loaded_assign | rewrite Hfg; reflexivity].
Qed.

Lemma put_reference {R} (T : table R) (c : bool) (v : json) (msg : string)
    (f : json -> Observation -> Observation) (g : Observation -> json)
    (o : Observation) :
  (forall o, f (g o) o = o) ->
  (forall o, rows T (pending (loaded id db o)) = rows T db) ->
  (c = true -> is_Some (query_get_json (rows T db) v)) ->
  (if c
   then
     let! found := query (fun db => query_get_json (rows T db) v) in
     if is_none found then respond (message msg) 400
     else assign Observations id (f v o)
   else ret o) (loaded id db o)
  = (Continue (f (if c then v else g o) o), loaded id db (f (if c then v else g o) o)).
Proof.
  intros Hfg HT Hc. destruct c; [|rewrite Hfg; reflexivity].
  unfold bind, query. rewrite HT, (is_none_false _ (Hc eq_refl)).
  apply loaded_assign.
Qed.

Lemma put_datetime (c : bool) (v : json) (o : Observation) :
  (c = true -> is_Some (Resources.parse_datetime v)) ->
  (if c
   then match Resources.parse_datetime v with
        | Some observation_datetime =>
            assign Observations id
              (Resources.with_datetime (Some observation_datetime) o)
        | None => respond Resources.invalid_datetime 400
        end
   else ret o) (loaded id db o)
  = (Continue (Resources.with_datetime
                 (if c then Resources.parse_datetime v else Observation_datetime o) o),
     loaded id db (Resources.with_datetime
               (if c then Resources.parse_datetime v else Observation_datetime o) o)).
Proof.
  intros Hc. destruct c; [|destruct o; reflexivity].
  destruct (Hc eq_refl) as [d ->]. apply loaded_assign.
Qed.

End put_observation.

Lemma put_observation_run (id : Z) (db : database) (P : payload) (row : Observation) :
  valid_update Server.EObservation id db P ->
  observations db !! id = Some row ->
  serve (Server.PUT Server.EObservation id (Some P)) db
  = (Response (Resources.Observation_dict id (put_row P row)) 200,
     with_rows Observations (<[id := put_row P row]> (observations db)) db).
Proof.
  intros (_ & Hne%py_not_nonempty & Hobj & Hpl & Hin & Hprop & Hdt) Hrow.
  unfold serve, run, Server.PUT, Resources.ObservationResource_put.
  rewrite (loaded_start id db row Hrow).
  erewrite bind_continue
    by (unfold query, query_get; simpl; rewrite lookup_insert_eq; reflexivity).
  rewrite Hne. cbv zeta. simpl default.
  erewrite bind_continue
    by (apply (put_reference id db Objects _ _ _ _ Observation_object);
        [intros []; reflexivity | reflexivity | exact Hobj]).
  erewrite bind_continue
    by (apply (put_reference id db Places _ _ _ _ Observation_place);
        [intros []; reflexivity | reflexivity | exact Hpl]).
  erewrite bind_continue
    by (apply (put_reference id db Instruments _ _ _ _ Observation_instrument);
        [intros []; reflexivity | reflexivity | exact Hin]).
  erewrite bind_continue
    by (apply (put_reference id db Properties _ _ _ _ prop1);
        [intros []; reflexivity | reflexivity
        | intros [Hh Ht]%andb_true_iff; exact (Hprop Ht Hh)]).
  erewrite bind_continue by (apply put_datetime; exact Hdt).
  erewrite bind_continue
    by (apply (put_field id db _ _ _ observation); intros []; reflexivity).
  erewrite bind_continue
    by (apply (put_field id db _ _ _ prop1value); intros []; reflexivity).
  reflexivity.
Qed.




(** ** A falsy [prop1] *)



(** ** What a handler can answer *)

Lemma returns_ret {A} Q (a : A) : returns Q (ret a).
Proof. intros s r s' [=]. Qed.

Lemma returns_query {A} Q (f : database -> A) : returns Q (query f).
Proof. intros s r s' [=]. Qed.

Lemma returns_update Q (f : database -> database) : returns Q (update f).
Proof. intros s r s' [=]. Qed.

Lemma returns_commit Q : returns Q commit.
Proof. intros s r s' [=]. Qed.

Lemma returns_assign {R} Q (T : table R) (id : Z) (row : R) :
  returns Q (assign T id row).
Proof. intros s r s' [=]. Qed.

Lemma returns_session_delete {R} Q (T : table R) (id : Z) :
  returns Q (session_delete T id).
Proof. intros s r s' [=]. Qed.

Lemma returns_session_add {R} (Q : response -> Prop) (T : table R) (id : json)
    (row : R) :
  Q internal_server_error -> returns Q (session_add T id row).
Proof.
  intros HQ s r s'. unfold session_add, raise.
  destruct (insert_row id row (rows T (pending s))) as [[k t]|]; intros [=]; subst.
  exact HQ.
Qed.

Lemma returns_respond {A} (Q : response -> Prop) (b : json) (code : Z) :
  Q (Response b code) -> returns Q (@respond A b code).
Proof. intros HQ s r s' [= <- _]. exact HQ. Qed.

Lemma returns_bind {A B} Q (m : handler A) (k : A -> handler B) :
  returns Q m -> (forall a, returns Q (k a)) -> returns Q (bind m k).
Proof.
  intros Hm Hk s r s'. unfold bind.
  destruct (m s) as [[a|r0] s0] eqn:E.
  - apply Hk.
  - intros [= <- _]. eapply Hm, E.
Qed.

Lemma answers_respond (Q : response -> Prop) (b : json) (code : Z) :
  Q (Response b code) -> answers Q (respond b code).
Proof. intros HQ s. exact HQ. Qed.

Lemma answers_bind {A} Q (m : handler A) (k : A -> handler response) :
  returns Q m -> (forall a, answers Q (k a)) -> answers Q (bind m k).
Proof.
  intros Hm Hk s. unfold run, bind.
  destruct (m s) as [[a|r0] s0] eqn:E.
  - apply Hk.
  - simpl. eapply Hm, E.
Qed.

Lemma serve_answers (Q : response -> Prop) (h : handler response) (db : database) :
  answers Q h -> Q (serve h db).1.
Proof.
  intros Ha. specialize (Ha (Session db db)). unfold serve.
  destruct (run h (Session db db)). exact Ha.
Qed.

Create HintDb answers.
#[local] Hint Resolve returns_ret returns_query returns_update returns_commit
  returns_assign returns_session_delete : answers.

(** [side] proves [Q] of a concrete response. *)
Ltac answering side :=
  cbv zeta;
  repeat first
    [ progress intros
    | match goal with
      | |- answers _ (if ?b then _ else _) => destruct b
      | |- returns _ (if ?b then _ else _) => destruct b
      | |- answers _ (match ?o with _ => _ end) => destruct o
      | |- returns _ (match ?o with _ => _ end) => destruct o
      end
    | solve [auto with answers]
    | apply answers_respond; side
    | apply returns_respond; side
    | apply returns_session_add; side
    | apply answers_bind
    | apply returns_bind ].

Ltac unfold_resources :=
  unfold Server.GET, Server.PUT, Server.DELETE, Server.POST, Server.LIST,
    Resources.TypeResource_get, Resources.TypeResource_put,
    Resources.TypeResource_delete, Resources.TypeListResource_post,
    Resources.TypeListResource_get,
    Resources.PropertyResource_get, Resources.PropertyResource_put,
    Resources.PropertyResource_delete, Resources.PropertyListResource_post,
    Resources.PropertyListResource_get,
    Resources.PlaceResource_get, Resources.PlaceResource_put,
    Resources.PlaceResource_delete, Resources.PlaceListResource_post,
    Resources.PlaceListResource_get,
    Resources.InstrumentResource_get, Resources.InstrumentResource_put,
    Resources.InstrumentResource_delete, Resources.InstrumentListResource_post,
    Resources.InstrumentListResource_get,
    Resources.ObjectResource_get, Resources.ObjectResource_put,
    Resources.ObjectResource_delete, Resources.ObjectListResource_post,
    Resources.ObjectListResource_get,
    Resources.ObservationResource_get, Resources.ObservationResource_put,
    Resources.ObservationResource_delete, Resources.ObservationListResource_post,
    Resources.ObservationListResource_get,
    Resources.ObjectObservationsResource_get,
    Resources.PlaceObservationsResource_get,
    Resources.InstrumentObservationsResource_get,
    Resources.ObservationSearchResource_get, Resources.invalid_datetime.

Ltac resource_side :=
  first [ left; simpl; tauto
        | right; split; [simpl; tauto | eexists; reflexivity] ].

Lemma resources_answers (e : Server.entity) (id : Z) (json_data : option payload)
    (args : gmap string string) :
  answers resource_answer (Server.LIST e)
  /\ answers resource_answer (Server.POST e json_data)
  /\ answers resource_answer (Server.GET e id)
  /\ answers resource_answer (Server.PUT e id json_data)
  /\ answers resource_answer (Server.DELETE e id)
  /\ answers resource_answer (Resources.ObjectObservationsResource_get id)
  /\ answers resource_answer (Resources.PlaceObservationsResource_get id)
  /\ answers resource_answer (Resources.InstrumentObservationsResource_get id)
  /\ answers resource_answer (Resources.ObservationSearchResource_get args).
Proof.
  repeat split; try destruct e; unfold_resources; answering resource_side.
Qed.

(** X15. [resources.py] never answers 422, whatever the body: not to a
    creation, not to an update. *)
Lemma resources_never_422 (e : Server.entity) (id : Z) (json_data : option payload)
    (db : database) :
  status (serve (Server.POST e json_data) db).1 <> 422
  /\ status (serve (Server.PUT e id json_data) db).1 <> 422.
Proof.
  destruct (resources_answers e id json_data ∅) as (_ & Hpost & _ & Hput & _).
  split; [apply (serve_answers _ _ db) in Hpost | apply (serve_answers _ _ db) in Hput];
    intros E; [destruct Hpost as [Hc|[Hc _]] | destruct Hput as [Hc|[Hc _]]];
    rewrite E in Hc; simpl in Hc; intuition discriminate.
Qed.

(** X16. Every answer of [resources.py] outside 2xx carries an object with
    the single field [message]. *)
Lemma resources_error_body (e : Server.entity) (id : Z) (json_data : option payload)
    (db : database) (h : handler response) :
  In h [Server.LIST e; Server.POST e json_data; Server.GET e id;
        Server.PUT e id json_data; Server.DELETE e id] ->
  is_2xx (status (serve h db).1) = false ->
  exists text, body (serve h db).1 = message text.
Proof.
  destruct (resources_answers e id json_data ∅) as (Hl & Hpost & Hget & Hput & Hdel & _).
  intros Hin Hs.
  assert (Ha : resource_answer (serve h db).1).
  { simpl in Hin. destruct Hin as [<-|[<-|[<-|[<-|[<-|[]]]]]]; now apply serve_answers. }
  destruct Ha as [[Hc|Hc]|[_ Hm]]; [rewrite Hc in Hs; discriminate..|exact Hm].
Qed.

(** ** Relationship endpoints *)

Lemma listing_of_parent (col : Observation -> json) (id : Z) (db : database) :
  List.NoDup (filter_by col id (observations db))
  /\ forall k o, In (k, o) (filter_by col id (observations db))
                 <-> observations db !! k = Some o /\ col o = JNum id.
Proof.
  unfold filter_by. split; [apply filter_rows_NoDup|].
  intros k o. rewrite filter_rows_spec. simpl. now rewrite column_is_true.
Qed.

(** X14. In [resources.py] the three relationship endpoints answer 404 for a
    parent that is not stored, and otherwise list exactly the Observations
    whose foreign key is the id. *)
Lemma relationship_checked (id : Z) (db : database) :
  (serve (Resources.ObjectObservationsResource_get id) db
   = match objects db !! id with
     | None => (Response (message "Object not found") 404, db)
     | Some _ =>
         (Response (JArr (map (fun kr => Resources.Observation_dict kr.1 kr.2)
                              (filter_by Observation_object id (observations db)))) 200,
          db)
     end)
  /\ (serve (Resources.PlaceObservationsResource_get id) db
      = match places db !! id with
        | None => (Response (message "Place not found") 404, db)
        | Some _ =>
            (Response (JArr (map (fun kr => Resources.Observation_dict kr.1 kr.2)
                                 (filter_by Observation_place id (observations db)))) 200,
             db)
        end)
  /\ (serve (Resources.InstrumentObservationsResource_get id) db
      = match instruments db !! id with
        | None => (Response (message "Instrument not found") 404, db)
        | Some _ =>
            (Response (JArr (map (fun kr => Resources.Observation_dict kr.1 kr.2)
                                 (filter_by Observation_instrument id
                                            (observations db)))) 200,
             db)
        end).
Proof.
  repeat split; unfold_handlers; simpl;
    match goal with |- context [?m !! id] => destruct (m !! id) end; reflexivity.
Qed.

(** ** Tables as lenses *)

Lemma lawful_tables :
  lawful Types /\ lawful Properties /\ lawful Places /\ lawful Instruments
  /\ lawful Objects /\ lawful Observations.
Proof. repeat split; intros; try destruct db; reflexivity. Qed.

Lemma alter_stored {R} (f : R -> R) (id : Z) (tbl : gmap Z R) (row : R) :
  tbl !! id = Some row -> alter f id tbl = <[id := f row]> tbl.
Proof.
  intros Hrow. apply map_eq. intros k. destruct (decide (k = id)) as [->|Hne].
  - rewrite lookup_alter_eq, lookup_insert_eq, Hrow. reflexivity.
  - rewrite lookup_alter_ne, lookup_insert_ne by congruence. reflexivity.
Qed.

Section loaded_row.
Context {R : Type} (T : table R) (HT : lawful T) (id : Z) (db : database).

Lemma loaded_in_start (row : R) :
  rows T db !! id = Some row -> Session db db = loaded_in T id db row.
Proof.
  intros Hrow. unfold loaded_in. rewrite (insert_id _ _ _ Hrow).
  destruct HT as (_ & _ & ->). reflexivity.
Qed.

Lemma loaded_in_rows (o : R) : rows T (pending (loaded_in T id db o)) = <[id := o]> (rows T db).
Proof. simpl. destruct HT as (-> & _). reflexivity. Qed.

Lemma loaded_in_assign (o o' : R) :
  assign T id o' (loaded_in T id db o) = (Continue o', loaded_in T id db o').
Proof.
  unfold assign, update, bind, ret. simpl. unfold loaded_in.
  destruct HT as (Hget & Hset & _). rewrite Hget, Hset, insert_insert_eq. reflexivity.
Qed.

Lemma loaded_in_get (o : R) :
  query (fun db => query_get (rows T db) id) (loaded_in T id db o)
  = (Continue (Some o), loaded_in T id db o).
Proof.
  unfold query, query_get. rewrite loaded_in_rows, lookup_insert_eq. reflexivity.
Qed.

Lemma loaded_in_field (c : bool) (o x : R) :
  (if c then assign T id x else ret o) (loaded_in T id db o)
  = (Continue (if c then x else o), loaded_in T id db (if c then x else o)).
Proof. destruct c; [apply loaded_in_assign | reflexivity]. Qed.

Lemma loaded_in_reference {R'} (T' : table R') (c : bool) (v : json) (msg : string)
    (o x : R) :
  (forall o, rows T' (pending (loaded_in T id db o)) = rows T' db) ->
  (c = true -> is_Some (query_get_json (rows T' db) v)) ->
  (if c
   then
     let! found := query (fun db => query_get_json (rows T' db) v) in
     if is_none found then respond (message msg) 400 else assign T id x
   else ret o) (loaded_in T id db o)
  = (Continue (if c then x else o), loaded_in T id db (if c then x else o)).
Proof.
  intros HT' Hc. destruct c; [|reflexivity].
  unfold bind, query. rewrite HT', (is_none_false _ (Hc eq_refl)).
  apply loaded_in_assign.
Qed.

End loaded_row.

(** ** Accepted updates *)

Ltac put_start T row Hrow Hne :=
  unfold serve, run, Server.PUT, Resources.TypeResource_put,
    Resources.PropertyResource_put, Resources.PlaceResource_put,
    Resources.InstrumentResource_put, Resources.ObjectResource_put;
  rewrite (loaded_in_start T ltac:(apply lawful_tables) _ _ row Hrow);
  erewrite bind_continue by (apply loaded_in_get; apply lawful_tables);
  rewrite Hne; cbv zeta;
  match goal with |- context [default ∅ (Some ?P)] =>
    change (default ∅ (Some P)) with P end.

Ltac put_step T :=
  erewrite bind_continue
    by (apply (loaded_in_field T ltac:(apply lawful_tables))).

Ltac put_end f row Hrow :=
  unfold bind, commit, respond; simpl;
  unfold Resources.TypeResource_get, Resources.PropertyResource_get,
    Resources.PlaceResource_get, Resources.InstrumentResource_get,
    Resources.ObjectResource_get, Resources.ObservationResource_get,
    bind, query, query_get, respond; simpl;
  rewrite (alter_stored f _ _ row Hrow), lookup_insert_eq; simpl;
  unfold put_type_row, put_property_row, put_place_row, put_instrument_row,
    put_object_row;
  repeat match goal with
    | |- context [has ?k ?P] => destruct (has k P)
    end; clear Hrow; destruct row; reflexivity.

Lemma put_run (e : Server.entity) (id : Z) (db : database) (P : payload) :
  valid_update e id db P ->
  serve (Server.PUT e id (Some P)) db
  = (Response (body (serve (Server.GET e id) (updated e id db P)).1) 200,
     updated e id db P).
Proof.
  intros Hv.
  destruct e; pose proof Hv as ([row Hrow] & Hne%py_not_nonempty & Href);
    simpl in Hrow, Href.
  - put_start Types row Hrow Hne. put_step Types.
    put_end (put_type_row P) row Hrow.
  - put_start Properties row Hrow Hne. do 2 put_step Properties.
    put_end (put_property_row P) row Hrow.
  - put_start Places row Hrow Hne. do 5 put_step Places.
    put_end (put_place_row P) row Hrow.
  - put_start Instruments row Hrow Hne. do 3 put_step Instruments.
    put_end (put_instrument_row P) row Hrow.
  - put_start Objects row Hrow Hne.
    erewrite bind_continue
      by (apply (loaded_in_reference Objects ltac:(apply lawful_tables) _ _ Types);
          [reflexivity | exact Href]).
    do 3 put_step Objects.
    put_end (put_object_row P) row Hrow.
  - rewrite (put_observation_run id db P row Hv Hrow). simpl.
    unfold serve, run, Resources.ObservationResource_get, bind, query, query_get,
      respond. simpl.
    rewrite (alter_stored (put_row P) _ _ row Hrow), lookup_insert_eq. reflexivity.
Qed.

(** ** Rejected updates *)

Lemma put_missing (e : Server.entity) (id : Z) (json_data : option payload)
    (db : database) :
  ~ stored e id db ->
  serve (Server.PUT e id json_data) db
  = (Response (message (not_found_message e)) 404, db).
Proof.
  intros Hst. destruct e; simpl in Hst; unfold_handlers; simpl;
    match goal with |- context [?m !! id] => destruct (m !! id) eqn:E end;
    solve [reflexivity | exfalso; apply Hst; eauto].
Qed.

Lemma put_without_body (e : Server.entity) (id : Z) (json_data : option payload)
    (db : database) :
  stored e id db -> py_not json_data = true ->
  serve (Server.PUT e id json_data) db
  = (Response (message "No input data provided") 400, db).
Proof.
  intros Hst Hn. destruct e; destruct Hst as [row Hrow]; simpl in Hrow;
    unfold_handlers; simpl; rewrite Hrow, Hn; reflexivity.
Qed.

Lemma put_bad_datetime (id : Z) (db : database) (P : payload) :
  stored Server.EObservation id db ->
  has "datetime" P = true ->
  Resources.parse_datetime (get "datetime" P) = None ->
  status (serve (Server.PUT Server.EObservation id (Some P)) db).1 = 400.
Proof.
  intros [row Hrow] Hh Hp. simpl in Hrow.
  assert (Hn : py_not (Some P) = false).
  { apply py_not_nonempty. intros ->. unfold has in Hh.
    rewrite lookup_empty in Hh. apply bool_decide_eq_true in Hh.
    destruct Hh as [? [=]]. }
  unfold_handlers. rewrite Hn. simpl. rewrite Hrow, Hh, Hp.
  repeat (next_test; simpl; try reflexivity).
Qed.

Lemma put_accepts (e : Server.entity) (id : Z) (json_data : option payload)
    (db : database) :
  is_2xx (status (serve (Server.PUT e id json_data) db).1) = true ->
  exists P, json_data = Some P /\ valid_update e id db P.
Proof.
  intros H2xx.
  assert (Hst : stored e id db).
  { destruct e; simpl;
      match goal with |- is_Some (?m !! id) => destruct (m !! id) eqn:E end;
      eauto; exfalso;
      rewrite put_missing in H2xx by (simpl; rewrite E; apply is_Some_None);
      discriminate. }
  destruct (py_not json_data) eqn:Hn.
  { rewrite (put_without_body e id json_data db Hst Hn) in H2xx. discriminate. }
  destruct json_data as [P|]; [|discriminate]. exists P. split; [reflexivity|].
  assert (Hne : P <> ∅).
  { simpl in Hn. now apply bool_decide_eq_false in Hn. }
  assert (Hdangling : ~ dangling e db P).
  { intros Hd. rewrite (dangling_put_400 e id db P Hst Hd) in H2xx. discriminate. }
  split; [exact Hst|]. split; [exact Hne|].
  destruct e; simpl in Hdangling |- *; try exact I; unfold resolves, dangles in *.
  - intros Hh. destruct (query_get_json (types db) (get "type" P)) eqn:E; [eauto|].
    exfalso. apply Hdangling. auto.
  - repeat split.
    + intros Hh. destruct (query_get_json (objects db) (get "object" P)) eqn:E;
        [eauto|]. exfalso. apply Hdangling. auto.
    + intros Hh. destruct (query_get_json (places db) (get "place" P)) eqn:E;
        [eauto|]. exfalso. apply Hdangling. auto.
    + intros Hh. destruct (query_get_json (instruments db) (get "instrument" P)) eqn:E;
        [eauto|]. exfalso. apply Hdangling. auto.
    + intros Ht Hh. destruct (query_get_json (properities db) (get "prop1" P)) eqn:E;
        [eauto|]. exfalso. apply Hdangling. auto 6.
    + intros Hh. destruct (Resources.parse_datetime (get "datetime" P)) eqn:E;
        [eauto|]. exfalso.
      rewrite (put_bad_datetime id db P Hst Hh E) in H2xx. discriminate.
Qed.

(** ** Creation *)

Ltac required_fields :=
  repeat match goal with
    | Hf : Forall _ (_ :: _) |- _ =>
        let Hk := fresh "Hk" in
        apply Forall_cons in Hf as [Hk%has_true Hf]
    | Hf : Forall _ [] |- _ => clear Hf
    end.

Lemma post_run (e : Server.entity) (db : database) (P : payload) :
  valid e db P ->
  serve (Server.POST e (Some P)) db
  = (Response (representation e (assigned_id e db P) P) 201, created e db P).
Proof.
  intros (Hreq & Hid & Href).
  destruct e; simpl in Hreq, Hid, Href;
    pose proof (py_not_Forall _ _ _ Hreq) as Hn; required_fields;
    unfold_handlers; rewrite Hn; simpl.
  - rewrite Hk. simpl. rewrite (insert_client_id _ _ _ Hid). reflexivity.
  - rewrite Hk, Hk0. simpl. rewrite (insert_client_id _ _ _ Hid). reflexivity.
  - rewrite Hk, Hk0, Hk1. reflexivity.
  - rewrite Hk. simpl. rewrite (insert_client_id _ _ _ Hid). reflexivity.
  - rewrite Hk, Hk0. simpl. rewrite (is_none_false _ Href). simpl.
    rewrite (insert_client_id _ _ _ Hid). reflexivity.
  - destruct Href as [(Hobj & Hpl & Hin & Hobs & Hprop) [d Hd]].
    assert (Hprop' : has "prop1" P && truthy (get "prop1" P) = true ->
                     is_none (query_get_json (properities db) (get "prop1" P)) = false).
    { intros [_ Ht]%andb_true_iff. apply is_none_false. auto. }
    rewrite Hk, Hk0, Hk1, Hk2, Hk3. simpl.
    rewrite (is_none_false _ Hobj); simpl. rewrite (is_none_false _ Hpl); simpl.
    rewrite (is_none_false _ Hin); simpl.
    unfold representation, rendered, Resources.Observation_dict, created; simpl.
    rewrite Hd.
    destruct (has "prop1" P && truthy (get "prop1" P)); simpl;
      rewrite ?Hprop' by reflexivity; reflexivity.
Qed.

Lemma has_is_Some (k : string) (P : payload) :
  has k P = true -> is_Some (P !! k).
Proof. apply bool_decide_eq_true. Qed.

Lemma is_none_is_Some {A} (o : option A) : is_none o = false -> is_Some o.
Proof. destruct o; [eauto | discriminate]. Qed.

Lemma insert_row_accepts {R} (tbl : gmap Z R) (P : payload) (row : R) :
  is_Some (insert_row (if has "id" P then get "id" P else JNull) row tbl) ->
  match P !! "id" with
  | None | Some JNull => True
  | Some (JNum k) => ~ is_Some (tbl !! k)
  | Some _ => False
  end.
Proof.
  unfold has, get. destruct (P !! "id") as [[| | k | | |]|] eqn:E; simpl;
    try tauto; try (intros [x Hx]; discriminate Hx).
  destruct (tbl !! k) eqn:F;
    [intros [x Hx]; discriminate Hx | intros _ [x Hx]; discriminate Hx].
Qed.

Lemma py_not_false (json_data : option payload) :
  py_not json_data = false -> exists P, json_data = Some P.
Proof. destruct json_data; [eauto | discriminate]. Qed.

Lemma truthy_has (k : string) (P : payload) :
  truthy (get k P) = true -> has k P = true.
Proof.
  unfold get, has. destruct (P !! k); simpl; [intros _; reflexivity | discriminate].
Qed.

Lemma has_false (k : string) (P : payload) : has k P = false -> P !! k = None.
Proof.
  unfold has. intros Hh%bool_decide_eq_false.
  destruct (P !! k); [exfalso; eauto | reflexivity].
Qed.

Ltac accepted_tests P :=
  repeat match goal with
    | E : negb _ = false |- _ => apply negb_false_iff, has_is_Some in E
    | E : is_none _ = false |- _ => apply is_none_is_Some in E
    | Hh : has "id" P = _, E : insert_row _ ?row ?tbl = Some _ |- _ =>
        let Hi := fresh "Hi" in
        assert (Hi : is_Some (insert_row (if has "id" P then get "id" P else JNull)
                                         row tbl))
          by (rewrite Hh; eauto);
        apply insert_row_accepts in Hi; clear E
    end.

Lemma post_accepts (e : Server.entity) (json_data : option payload)
    (db : database) :
  is_2xx (status (serve (Server.POST e json_data) db).1) = true ->
  exists P, json_data = Some P /\ valid e db P.
Proof.
  destruct (py_not json_data) eqn:Hn.
  { destruct e; unfold_handlers; rewrite Hn; discriminate. }
  destruct (py_not_false _ Hn) as [P ->]. intros H2xx. exists P.
  split; [reflexivity|]. revert H2xx.
  destruct e; unfold_handlers; rewrite Hn; simpl;
    repeat (next_test; simpl; try discriminate);
    intros _; accepted_tests P;
    (split; [repeat constructor; assumption|]); simpl;
    try match goal with
      | Hh : has "id" P = false |- _ => apply has_false in Hh; rewrite Hh
      end; auto.
  all: repeat split; eauto.
  intros Ht. rewrite (truthy_has _ _ Ht), Ht in *. discriminate.
Qed.

(** ** Removal *)

Lemma delete_missing (e : Server.entity) (id : Z) (db : database) :
  ~ stored e id db ->
  serve (Server.DELETE e id) db
  = (Response (message (not_found_message e)) 404, db).
Proof.
  intros Hst. destruct e; simpl in Hst; unfold_handlers; simpl;
    match goal with |- context [?m !! id] => destruct (m !! id) eqn:E end;
    solve [reflexivity | exfalso; apply Hst; eauto].
Qed.

Lemma delete_in_use (p : parent) (id : Z) (db : database) :
  stored (entity_of p) id db -> in_use (entity_of p) id db = true ->
  serve (Server.DELETE (entity_of p) id) db
  = (Response (message (in_use_message p)) 400, db).
Proof.
  intros Hst Hu. destruct p; destruct Hst as [row Hrow]; simpl in Hrow;
    unfold_handlers; simpl; rewrite Hrow; simpl;
    match goal with
    | |- context [nonempty ?l] =>
        replace (nonempty l) with true by (symmetry; exact Hu)
    end; reflexivity.
Qed.

Lemma delete_unused (e : Server.entity) (id : Z) (db : database) :
  stored e id db -> in_use e id db = false ->
  serve (Server.DELETE e id) db
  = (Response (message (deleted_message e)) 204, deleted e id db).
Proof.
  intros Hst Hu. destruct e; destruct Hst as [row Hrow]; simpl in Hrow;
    unfold_handlers; simpl; rewrite Hrow; simpl;
    try match goal with
      | |- context [nonempty ?l] =>
          replace (nonempty l) with false by (symmetry; exact Hu)
      end; reflexivity.
Qed.

Lemma in_use_parent (e : Server.entity) (id : Z) (db : database) :
  in_use e id db = true -> exists p, e = entity_of p.
Proof.
  destruct e; intros Hu;
    [exists PType | exists PProperty | exists PPlace | exists PInstrument
    | exists PObject | discriminate]; reflexivity.
Qed.

Lemma delete_accepts (e : Server.entity) (id : Z) (db : database) :
  is_2xx (status (serve (Server.DELETE e id) db).1) = true ->
  stored e id db /\ in_use e id db = false.
Proof.
  intros H2xx.
  assert (Hst : stored e id db).
  { destruct e; simpl;
      match goal with |- is_Some (?m !! id) => destruct (m !! id) eqn:E end;
      eauto; exfalso;
      rewrite delete_missing in H2xx by (simpl; rewrite E; apply is_Some_None);
      discriminate. }
  split; [exact Hst|]. destruct (in_use e id db) eqn:Hu; [|reflexivity].
  destruct (in_use_parent _ _ _ Hu) as [p ->].
  rewrite (delete_in_use p id db Hst Hu) in H2xx. discriminate.
Qed.

(** ** Referential integrity *)

Lemma resolves_insert {R} (tbl : gmap Z R) (k : Z) (r : R) (v : json) :
  is_Some (query_get_json tbl v) -> is_Some (query_get_json (<[k := r]> tbl) v).
Proof.
  destruct v as [| |n| | |]; simpl; try (intros [? ?]; discriminate).
  intros Hn. destruct (decide (n = k)) as [->|Hne].
  - rewrite lookup_insert_eq. eauto.
  - rewrite lookup_insert_ne by congruence. exact Hn.
Qed.

Lemma resolves_alter {R} (f : R -> R) (tbl : gmap Z R) (k : Z) (v : json) :
  is_Some (query_get_json tbl v) -> is_Some (query_get_json (alter f k tbl) v).
Proof.
  destruct v as [| |n| | |]; simpl; try (intros [? ?]; discriminate).
  intros [r Hr]. destruct (decide (n = k)) as [->|Hne].
  - rewrite lookup_alter_eq, Hr. simpl. eauto.
  - rewrite lookup_alter_ne by congruence. eauto.
Qed.

Lemma resolves_delete {R} (tbl : gmap Z R) (k : Z) (v : json) :
  is_Some (query_get_json tbl v) -> v <> JNum k ->
  is_Some (query_get_json (delete k tbl) v).
Proof.
  destruct v as [| |n| | |]; simpl; try (intros [? ?]; discriminate).
  intros Hn Hne. rewrite lookup_delete_ne by congruence. exact Hn.
Qed.

Lemma object_ok_keeps (db db' : database) (o : Object) :
  keeps_keys db db' -> object_ok db o -> object_ok db' o.
Proof. intros (Ht & _). apply Ht. Qed.

Lemma observation_ok_keeps (db db' : database) (o : Observation) :
  keeps_keys db db' -> observation_ok db o -> observation_ok db' o.
Proof.
  intros (_ & Hpr & Hpl & Hin & Hob) (Ho & Hp & Hi & Hq).
  repeat split; auto.
Qed.

(** Integrity holds after a write that loses no key of a parent table and
    whose dependent rows refer to rows that were stored before it. *)
Lemma integrity_step (db db' : database) :
  keeps_keys db db' ->
  (forall k o, objects db' !! k = Some o -> object_ok db o) ->
  (forall k o, observations db' !! k = Some o -> observation_ok db o) ->
  integrity db'.
Proof.
  intros Hk Hobj Hobs. split; intros k o Ho.
  - eapply object_ok_keeps; eauto.
  - eapply observation_ok_keeps; eauto.
Qed.

Lemma integrity_created (e : Server.entity) (db : database) (P : payload) :
  valid e db P -> integrity db -> integrity (created e db P).
Proof.
  intros (Hreq & Hid & Href) [Io Ib]. apply (integrity_step db).
  - destruct e; repeat split; simpl; auto using @resolves_insert.
  - destruct e; simpl; auto. intros k o.
    destruct (decide (k = assigned_id Server.EObject db P)) as [->|Hne].
    + rewrite lookup_insert_eq. intros [= <-]. exact Href.
    + rewrite lookup_insert_ne by (simpl in Hne; congruence). apply Io.
  - destruct e; simpl; auto. intros k o.
    destruct (decide (k = assigned_id Server.EObservation db P)) as [->|Hne].
    + rewrite lookup_insert_eq. intros [= <-].
      destruct Href as [(Hobj & Hpl & Hin & _ & Hprop) _].
      repeat split; assumption.
    + rewrite lookup_insert_ne by (simpl in Hne; congruence). apply Ib.
Qed.

Lemma put_object_row_ok (db : database) (P : payload) (row : Object) :
  resolves (types db) "type" P -> object_ok db row ->
  object_ok db (put_object_row P row).
Proof.
  unfold object_ok, put_object_row, resolves. simpl.
  destruct (has "type" P); auto.
Qed.

Lemma put_row_ok (id : Z) (db : database) (P : payload) (row : Observation) :
  valid_update Server.EObservation id db P -> observation_ok db row ->
  observation_ok db (put_row P row).
Proof.
  intros (_ & _ & Hobj & Hpl & Hin & Hprop & _) (Ho & Hp & Hi & Hq).
  unfold observation_ok, put_row, resolves in *. simpl.
  destruct (has "object" P), (has "place" P), (has "instrument" P),
    (has "prop1" P) eqn:Hh; simpl; repeat split; auto;
    destruct (truthy (get "prop1" P)) eqn:Ht; simpl; auto.
Qed.

Lemma integrity_updated (e : Server.entity) (id : Z) (db : database) (P : payload) :
  valid_update e id db P -> integrity db -> integrity (updated e id db P).
Proof.
  intros Hv [Io Ib]. apply (integrity_step db).
  - destruct e; repeat split; simpl; auto using @resolves_alter.
  - destruct e; simpl; auto. intros k o.
    destruct (decide (k = id)) as [->|Hk].
    + rewrite lookup_alter_eq. destruct (objects db !! id) as [row|] eqn:Hrow;
        simpl; intros [= <-].
      apply put_object_row_ok; [apply Hv | eapply Io, Hrow].
    + rewrite lookup_alter_ne by congruence. apply Io.
  - destruct e; simpl; auto. intros k o.
    destruct (decide (k = id)) as [->|Hk].
    + rewrite lookup_alter_eq. destruct (observations db !! id) as [row|] eqn:Hrow;
        simpl; intros [= <-].
      eapply put_row_ok; [exact Hv | eapply Ib, Hrow].
    + rewrite lookup_alter_ne by congruence. apply Ib.
Qed.

Lemma unreferenced {R} (col : R -> json) (id : Z) (tbl : gmap Z R) (k : Z) (r : R) :
  nonempty (filter_by col id tbl) = false -> tbl !! k = Some r -> col r <> JNum id.
Proof.
  intros Hf%filter_by_empty Hr Hc. apply Hf. eauto.
Qed.

Lemma integrity_deleted (e : Server.entity) (id : Z) (db : database) :
  in_use e id db = false -> integrity db -> integrity (deleted e id db).
Proof.
  intros Hu [Io Ib].
  destruct e; simpl in Hu; split; simpl; intros k o Ho;
    try (apply lookup_delete_Some in Ho as [_ Ho]);
    try (apply Io in Ho as Hok); try (apply Ib in Ho as Hok);
    try exact Hok.
  - apply resolves_delete; [exact Hok | eapply unreferenced; eauto].
  - destruct Hok as (? & ? & ? & Hq). repeat split; auto.
    intros Ht. apply resolves_delete; [auto | eapply (unreferenced prop1); eauto].
  - destruct Hok as (? & ? & ? & Hq). repeat split; auto.
    apply resolves_delete; [auto | eapply (unreferenced Observation_place); eauto].
  - destruct Hok as (? & ? & ? & Hq). repeat split; auto.
    apply resolves_delete;
      [auto | eapply (unreferenced Observation_instrument); eauto].
  - destruct Hok as (? & ? & ? & Hq). repeat split; auto.
    apply resolves_delete; [auto | eapply (unreferenced Observation_object); eauto].
Qed.

(** ** Reads *)

Lemma serve_quiet (h : handler response) (db : database) :
  quiet h -> (serve h db).2 = db.
Proof.
  intros Hq. specialize (Hq (Session db db)). unfold serve, run.
  destruct (h (Session db db)) as [[r|r] s]; exact Hq.
Qed.

Lemma GET_quiet (e : Server.entity) (id : Z) : quiet (Server.GET e id).
Proof.
  destruct e; unfold Server.GET, Resources.TypeResource_get,
    Resources.PropertyResource_get, Resources.PlaceResource_get,
    Resources.InstrumentResource_get, Resources.ObjectResource_get,
    Resources.ObservationResource_get; atomicity.
Qed.

Lemma LIST_quiet (e : Server.entity) : quiet (Server.LIST e).
Proof.
  destruct e; unfold Server.LIST, Resources.TypeListResource_get,
    Resources.PropertyListResource_get, Resources.PlaceListResource_get,
    Resources.InstrumentListResource_get, Resources.ObjectListResource_get,
    Resources.ObservationListResource_get; atomicity.
Qed.

Lemma search_quiet (args : gmap string string) :
  quiet (Resources.ObservationSearchResource_get args).
Proof. unfold Resources.ObservationSearchResource_get. atomicity. Qed.

Lemma relationship_quiet (id : Z) :
  quiet (Resources.ObjectObservationsResource_get id)
  /\ quiet (Resources.PlaceObservationsResource_get id)
  /\ quiet (Resources.InstrumentObservationsResource_get id).
Proof.
  unfold Resources.ObjectObservationsResource_get,
    Resources.PlaceObservationsResource_get,
    Resources.InstrumentObservationsResource_get.
  split; [|split]; atomicity.
Qed.

(** ** Updates applied twice *)

Lemma put_row_idempotent (P : payload) (row : Observation) :
  put_row P (put_row P row) = put_row P row.
Proof.
  unfold put_row. destruct row. simpl.
  destruct (has "object" P), (has "place" P), (has "instrument" P),
    (has "prop1" P && truthy (get "prop1" P)), (has "datetime" P),
    (has "observation" P), (has "prop1value" P); reflexivity.
Qed.

Lemma alter_idempotent {R} (f : R -> R) (id : Z) (tbl : gmap Z R) :
  (forall r, f (f r) = f r) -> alter f id (alter f id tbl) = alter f id tbl.
Proof.
  intros Hf. apply map_eq. intros k. destruct (decide (k = id)) as [->|Hne].
  - rewrite !lookup_alter_eq. destruct (tbl !! id); simpl; [|reflexivity].
    now rewrite Hf.
  - now rewrite !lookup_alter_ne by congruence.
Qed.

Lemma updated_idempotent (e : Server.entity) (id : Z) (db : database) (P : payload) :
  updated e id (updated e id db P) P = updated e id db P.
Proof.
  destruct e; simpl; rewrite alter_idempotent; try reflexivity; intros r.
  - unfold put_type_row. simpl. destruct (has "name" P); reflexivity.
  - unfold put_property_row. simpl.
    destruct (has "name" P), (has "valueType" P); reflexivity.
  - unfold put_place_row. simpl.
    destruct (has "name" P), (has "lat" P), (has "lon" P), (has "alt" P),
      (has "timezone" P); reflexivity.
  - unfold put_instrument_row. simpl.
    destruct (has "name" P), (has "aperture" P), (has "power" P); reflexivity.
  - unfold put_object_row. simpl.
    destruct (has "name" P), (has "desination" P), (has "type" P), (has "props" P);
      reflexivity.
  - apply put_row_idempotent.
Qed.

Lemma stored_alter {R} (f : R -> R) (id : Z) (tbl : gmap Z R) :
  is_Some (tbl !! id) -> is_Some (alter f id tbl !! id).
Proof. intros [r Hr]. rewrite lookup_alter_eq, Hr. simpl. eauto. Qed.

Lemma valid_update_updated (e : Server.entity) (id : Z) (db : database)
    (P : payload) :
  valid_update e id db P -> valid_update e id (updated e id db P) P.
Proof.
  intros (Hst & Hne & Href). split; [|split; [exact Hne|]].
  - destruct e; simpl in *; now apply stored_alter.
  - destruct e; simpl in *; auto.
Qed.

(** ** Creation undone *)

Lemma assigned_id_unused (e : Server.entity) (db : database) (P : payload) :
  valid e db P -> ~ stored e (assigned_id e db P) db.
Proof.
  intros (_ & Hid & _).
  destruct e; simpl in *; try (rewrite fresh_id_unused; apply is_Some_None);
    destruct (P !! "id") as [[]|]; simpl in *; try tauto;
    rewrite fresh_id_unused; apply is_Some_None.
Qed.

Lemma delete_inserted {R} (k : Z) (r : R) (tbl : gmap Z R) :
  ~ is_Some (tbl !! k) -> delete k (<[k := r]> tbl) = tbl.
Proof.
  intros Hk. apply map_eq. intros j. destruct (decide (j = k)) as [->|Hne].
  - rewrite lookup_delete_eq. destruct (tbl !! k); [exfalso; eauto | reflexivity].
  - now rewrite lookup_delete_ne, lookup_insert_ne by congruence.
Qed.

Lemma deleted_created (e : Server.entity) (db : database) (P : payload) :
  valid e db P -> deleted e (assigned_id e db P) (created e db P) = db.
Proof.
  intros Hv. pose proof (assigned_id_unused e db P Hv) as Hu.
  destruct e; unfold deleted, created; cbv zeta; simpl rows; simpl in Hu |- *;
    rewrite (delete_inserted _ _ _ Hu); destruct db; reflexivity.
Qed.

Lemma stored_created (e : Server.entity) (db : database) (P : payload) :
  stored e (assigned_id e db P) (created e db P).
Proof. destruct e; simpl; rewrite lookup_insert_eq; eauto. Qed.

Lemma in_use_created (e : Server.entity) (id : Z) (db : database) (P : payload) :
  in_use e id (created e db P) = in_use e id db.
Proof. destruct e; reflexivity. Qed.

(** In a store with integrity nothing refers to an id that is not
    stored, except that a falsy [prop1], which no handler checks, can
    carry the id 0 of a Property. *)
Lemma integrity_unused (e : Server.entity) (id : Z) (db : database) :
  integrity db -> ~ stored e id db -> id <> 0 -> in_use e id db = false.
Proof.
  intros [Io Ib] Hst Hid.
  destruct e; simpl in *; try reflexivity; apply filter_by_empty;
    intros (k & o & Ho & Hc).
  - apply Io in Ho. unfold object_ok in Ho. rewrite Hc in Ho. auto.
  - apply Ib in Ho as (_ & _ & _ & Hq). rewrite Hc in Hq. simpl in Hq.
    apply Hst, Hq. apply negb_true_iff, Z.eqb_neq. exact Hid.
  - apply Ib in Ho as (_ & Hq & _). rewrite Hc in Hq. auto.
  - apply Ib in Ho as (_ & _ & Hq & _). rewrite Hc in Hq. auto.
  - apply Ib in Ho as (Hq & _). rewrite Hc in Hq. auto.
Qed.

(** ** Rows that a write does not name *)

Lemma GET_updated_other (e e' : Server.entity) (id id' : Z) (db : database)
    (P : payload) :
  (e', id') <> (e, id) ->
  (serve (Server.GET e' id') (updated e id db P)).1 = (serve (Server.GET e' id') db).1.
Proof.
  intros Hne. destruct e, e'; unfold_handlers; simpl;
    rewrite ?lookup_alter_ne by congruence;
    match goal with |- context [?m !! id'] => destruct (m !! id') end; reflexivity.
Qed.

Lemma GET_deleted_other (e e' : Server.entity) (id id' : Z) (db : database) :
  (e', id') <> (e, id) ->
  (serve (Server.GET e' id') (deleted e id db)).1 = (serve (Server.GET e' id') db).1.
Proof.
  intros Hne. destruct e, e'; unfold_handlers; simpl;
    rewrite ?lookup_delete_ne by congruence;
    match goal with |- context [?m !! id'] => destruct (m !! id') end; reflexivity.
Qed.

Lemma GET_created_other (e e' : Server.entity) (id' : Z) (db : database)
    (P : payload) :
  (e', id') <> (e, assigned_id e db P) ->
  (serve (Server.GET e' id') (created e db P)).1 = (serve (Server.GET e' id') db).1.
Proof.
  intros Hne. destruct e, e'; unfold_handlers; simpl in *;
    rewrite ?lookup_insert_ne by congruence;
    match goal with |- context [?m !! id'] => destruct (m !! id') end; reflexivity.
Qed.

(** ** Listings *)

Lemma listed {R} (dict : Z -> R -> json) (tbl : gmap Z R) (j : json) :
  In j (map (fun kr => dict kr.1 kr.2) (query_all tbl))
  <-> exists id r, tbl !! id = Some r /\ j = dict id r.
Proof.
  rewrite in_map_iff. unfold query_all. split.
  - intros ([k r] & <- & Hin). exists k, r. split; [|reflexivity].
    apply elem_of_map_to_list. now apply list_elem_of_In.
  - intros (k & r & Hr & ->). exists (k, r). split; [reflexivity|].
    apply list_elem_of_In. now apply elem_of_map_to_list.
Qed.

Lemma got {R} (dict : Z -> R -> json) (tbl : gmap Z R) (text : string) (id : Z)
    (j : json) (db : database) :
  match tbl !! id with
  | Some r => (Response (dict id r) 200, db)
  | None => (Response (message text) 404, db)
  end = (Response j 200, db)
  <-> exists r, tbl !! id = Some r /\ j = dict id r.
Proof.
  destruct (tbl !! id) as [r|]; split.
  - intros [= <-]. eauto.
  - intros (? & [= <-] & ->). reflexivity.
  - discriminate.
  - intros (? & [=] & _).
Qed.

(** ** The writes, characterised *)




(** X4. Every creation, update and removal of [resources.py] keeps
    referential integrity: if every reference of every stored Object and
    Observation names a stored row before the request, it does so after
    it, whatever the request carries and whatever it is answered. *)
Theorem writes_keep_integrity (db : database) :
  integrity db ->
  forall (e : Server.entity) (id : Z) (json_data : option payload),
    integrity (serve (Server.POST e json_data) db).2
    /\ integrity (serve (Server.PUT e id json_data) db).2
    /\ integrity (serve (Server.DELETE e id) db).2.
Proof.
  intros Hi e id json_data. split; [|split].
  - destruct (is_2xx (status (serve (Server.POST e json_data) db).1)) eqn:Hs.
    + destruct (post_accepts _ _ _ Hs) as (P & -> & Hv).
      rewrite (post_run e db P Hv). now apply integrity_created.
    + rewrite (serve_atomic _ _ (POST_atomic e json_data) Hs). exact Hi.
  - destruct (is_2xx (status (serve (Server.PUT e id json_data) db).1)) eqn:Hs.
    + destruct (put_accepts _ _ _ _ Hs) as (P & -> & Hv).
      rewrite (put_run e id db P Hv). now apply integrity_updated.
    + rewrite (serve_atomic _ _ (PUT_atomic e id json_data) Hs). exact Hi.
  - destruct (is_2xx (status (serve (Server.DELETE e id) db).1)) eqn:Hs.
    + destruct (delete_accepts _ _ _ Hs) as [Hst Hu].
      rewrite (delete_unused e id db Hst Hu). now apply integrity_deleted.
    + rewrite (serve_atomic _ _ (DELETE_atomic e id) Hs). exact Hi.
Qed.

(** X5. An accepted update is idempotent: sent again, it is accepted again,
    answers the same representation and leaves the store as the first
    one left it. *)
Theorem update_twice (e : Server.entity) (id : Z) (db : database) (P : payload) :
  valid_update e id db P ->
  let r := serve (Server.PUT e id (Some P)) db in
  status r.1 = 200 /\ serve (Server.PUT e id (Some P)) r.2 = r.
Proof.
  intros Hv. cbv zeta. rewrite (put_run e id db P Hv). split; [reflexivity|].
  simpl. rewrite (put_run e id _ P (valid_update_updated e id db P Hv)).
  rewrite updated_idempotent. reflexivity.
Qed.

(** X6. In a store with integrity, removing a row right after its creation
    is accepted and gives the store back as it was before the creation.
    The id 0 is left out: a falsy [prop1] is stored unchecked, so an
    Observation may carry the id 0 of a Property that is not stored. *)
Theorem creation_undone (e : Server.entity) (db : database) (P : payload) :
  integrity db -> valid e db P -> assigned_id e db P <> 0 ->
  let r := serve (Server.POST e (Some P)) db in
  serve (Server.DELETE e (assigned_id e db P)) r.2
  = (Response (message (deleted_message e)) 204, db).
Proof.
  intros Hi Hv Hid. cbv zeta. rewrite (post_run e db P Hv). simpl.
  rewrite delete_unused.
  - now rewrite deleted_created.
  - apply stored_created.
  - rewrite in_use_created.
    apply integrity_unused; [exact Hi | now apply assigned_id_unused | exact Hid].
Qed.

(** X8. The reading endpoints never change the store: the GET of a row, the
    listing of an entity, the three relationship listings and the
    search. *)
Theorem reads_keep_store (e : Server.entity) (id : Z) (args : gmap string string)
    (db : database) :
  (serve (Server.GET e id) db).2 = db
  /\ (serve (Server.LIST e) db).2 = db
  /\ (serve (Resources.ObjectObservationsResource_get id) db).2 = db
  /\ (serve (Resources.PlaceObservationsResource_get id) db).2 = db
  /\ (serve (Resources.InstrumentObservationsResource_get id) db).2 = db
  /\ (serve (Resources.ObservationSearchResource_get args) db).2 = db.
Proof.
  destruct (relationship_quiet id) as (Ho & Hp & Hi).
  repeat split; apply serve_quiet;
    auto using GET_quiet, LIST_quiet, search_quiet.
Qed.

(** X9. The listing of an entity answers 200 with an array that holds
    exactly the representations that the GET of some id answers with
    200. *)
Theorem listing_agrees_with_get (e : Server.entity) (db : database) :
  exists l,
    serve (Server.LIST e) db = (Response (JArr l) 200, db)
    /\ forall j, In j l <-> exists id, serve (Server.GET e id) db = (Response j 200, db).
Proof.
  destruct e; eexists; (split; [reflexivity|]); intros j; rewrite listed;
    unfold_handlers; simpl; split.
  all: try (intros (id & r & Hr & ->); exists id; rewrite Hr; reflexivity).
  all: intros [id Hg]; exists id;
    match goal with
    | _ : context [?m !! id] |- _ => destruct (m !! id) as [r|]
    end; [exists r; split; [reflexivity|]; congruence | discriminate].
Qed.

(** X10. An update is refused before its body is looked at when the row is
    missing: the answer is 404 whatever the body.  On a stored row, no
    body or an empty object is answered 400.  Neither changes the store. *)
Theorem update_rejected_early (e : Server.entity) (id : Z)
    (json_data : option payload) (db : database) :
  (~ stored e id db ->
   serve (Server.PUT e id json_data) db
   = (Response (message (not_found_message e)) 404, db))
  /\ (stored e id db -> json_data = None \/ json_data = Some ∅ ->
       serve (Server.PUT e id json_data) db
       = (Response (message "No input data provided") 400, db)).
Proof.
  split; [apply put_missing|]. intros Hst Hj. apply put_without_body; [exact Hst|].
  destruct Hj as [->| ->]; reflexivity.
Qed.

(** X11. A creation whose body lacks a required key is answered 400 with the
    message of the first such key, in the order in which the handler
    checks them, and stores nothing; no body or an empty object is
    answered 400 before any key is looked at. *)
Theorem creation_names_missing_field (e : Server.entity)
    (json_data : option payload) (db : database) :
  (json_data = None \/ json_data = Some ∅ ->
   serve (Server.POST e json_data) db
   = (Response (message "No input data provided") 400, db))
  /\ (forall P k, json_data = Some P -> P <> ∅ ->
       first_missing (required e) P = Some k ->
       serve (Server.POST e json_data) db
       = (Response (message (required_message k)) 400, db)).
Proof.
  split.
  - intros [->| ->]; destruct e; reflexivity.
  - intros P k -> Hne%py_not_nonempty Hk. unfold first_missing in Hk.
    destruct e; simpl in Hk; unfold_handlers; rewrite Hne; simpl;
      repeat match type of Hk with
        | context [has ?x P] => destruct (has x P); simpl in Hk |- *
        end;
      solve [discriminate Hk | injection Hk as <-; reflexivity].
Qed.

(** X7. A write names one row; the GET of any other row, of the same or of
    another entity, answers after the write what it answered before it,
    whatever the write is answered.  For a creation the row named is the
    one under the assigned id. *)
Theorem write_keeps_other_rows (e e' : Server.entity) (id id' : Z)
    (json_data : option payload) (db : database) :
  (e', id') <> (e, id) ->
  (serve (Server.GET e' id') (serve (Server.PUT e id json_data) db).2).1
  = (serve (Server.GET e' id') db).1
  /\ (serve (Server.GET e' id') (serve (Server.DELETE e id) db).2).1
     = (serve (Server.GET e' id') db).1
  /\ (forall P, json_data = Some P -> id = assigned_id e db P ->
       (serve (Server.GET e' id') (serve (Server.POST e json_data) db).2).1
       = (serve (Server.GET e' id') db).1).
Proof.
  intros Hne. split; [|split].
  - destruct (is_2xx (status (serve (Server.PUT e id json_data) db).1)) eqn:Hs.
    + destruct (put_accepts _ _ _ _ Hs) as (P & -> & Hv).
      rewrite (put_run e id db P Hv). now apply GET_updated_other.
    + now rewrite (serve_atomic _ _ (PUT_atomic e id json_data) Hs).
  - destruct (is_2xx (status (serve (Server.DELETE e id) db).1)) eqn:Hs.
    + destruct (delete_accepts _ _ _ Hs) as [Hst Hu].
      rewrite (delete_unused e id db Hst Hu). now apply GET_deleted_other.
    + now rewrite (serve_atomic _ _ (DELETE_atomic e id) Hs).
  - intros P -> ->.
    destruct (is_2xx (status (serve (Server.POST e (Some P)) db).1)) eqn:Hs.
    + destruct (post_accepts _ _ _ Hs) as (P' & [= <-] & Hv).
      rewrite (post_run e db P Hv). now apply GET_created_other.
    + now rewrite (serve_atomic _ _ (POST_atomic e (Some P)) Hs).
Qed.

(** ** Search and the relationship listings *)

Ltac search_answer :=
  repeat split; intros; try reflexivity; try congruence; try tauto;
  repeat match goal with
    | Hd : _ \/ _ |- _ => destruct Hd as [Hd|Hd]; try discriminate Hd
    end.

(** X12. A search is answered 200 or 400, and 400 exactly when one of the
    supplied filters is malformed; the message is that of the first
    malformed filter, in the order start date, end date, object, place,
    instrument. *)
Theorem search_rejects_malformed (args : gmap string string) (db : database) :
  let r := serve (Resources.ObservationSearchResource_get args) db in
  let sd := date_filter (args !! "start_date") in
  let ed := date_filter (args !! "end_date") in
  let oi := id_filter (args !! "object_id") in
  let pi := id_filter (args !! "place_id") in
  let ii := id_filter (args !! "instrument_id") in
  (status r.1 = 200 \/ status r.1 = 400)
  /\ (status r.1 = 400
      <-> sd = None \/ ed = None \/ oi = None \/ pi = None \/ ii = None)
  /\ (sd = None ->
      body r.1 = message "Invalid start_date format. Use ISO format (YYYY-MM-DDTHH:MM:SS)")
  /\ (sd <> None -> ed = None ->
      body r.1 = message "Invalid end_date format. Use ISO format (YYYY-MM-DDTHH:MM:SS)")
  /\ (sd <> None -> ed <> None -> oi = None ->
      body r.1 = message "Invalid object_id format. Must be an integer")
  /\ (sd <> None -> ed <> None -> oi <> None -> pi = None ->
      body r.1 = message "Invalid place_id format. Must be an integer")
  /\ (sd <> None -> ed <> None -> oi <> None -> pi <> None -> ii = None ->
      body r.1 = message "Invalid instrument_id format. Must be an integer").
Proof.
  cbv zeta. unfold date_filter, id_filter, Resources.ObservationSearchResource_get.
  unfold_handlers. cbv zeta.
  destruct (Resources.given (args !! "start_date"));
    [destruct (fromisoformat (replace_Z (default "" (args !! "start_date"))))|];
    simpl; try solve [search_answer];
  (destruct (Resources.given (args !! "end_date"));
    [destruct (fromisoformat (replace_Z (default "" (args !! "end_date"))))|];
    simpl; try solve [search_answer]);
  (destruct (Resources.given (args !! "object_id"));
    [destruct (int (default "" (args !! "object_id")))|];
    simpl; try solve [search_answer]);
  (destruct (Resources.given (args !! "place_id"));
    [destruct (int (default "" (args !! "place_id")))|];
    simpl; try solve [search_answer]);
  (destruct (Resources.given (args !! "instrument_id"));
    [destruct (int (default "" (args !! "instrument_id")))|];
    simpl; solve [search_answer]).
Qed.

(** X13. The listing of the Observations of a stored Object, Place or
    Instrument is the search by that id alone: both answer the same
    array. *)
Theorem relationship_is_search (id : Z) (s : string) (db : database) :
  s <> "" -> int s = Some id ->
  (stored Server.EObject id db ->
   serve (Resources.ObjectObservationsResource_get id) db
   = serve (Resources.ObservationSearchResource_get {[ "object_id" := s ]}) db)
  /\ (stored Server.EPlace id db ->
      serve (Resources.PlaceObservationsResource_get id) db
      = serve (Resources.ObservationSearchResource_get {[ "place_id" := s ]}) db)
  /\ (stored Server.EInstrument id db ->
      serve (Resources.InstrumentObservationsResource_get id) db
      = serve (Resources.ObservationSearchResource_get {[ "instrument_id" := s ]}) db).
Proof.
  intros Hs Hint.
  assert (Hg : Resources.given (Some s) = true).
  { simpl. apply negb_true_iff, String.eqb_neq. exact Hs. }
  split; [|split]; intros [row Hrow]; simpl in Hrow.
  - rewrite (search_query _ (Filters.Make None None (Some id) None None));
      try reflexivity;
      [|unfold id_filter; rewrite lookup_singleton_eq, Hg; simpl; now rewrite Hint].
    unfold_handlers. simpl. rewrite Hrow. simpl. unfold filter_by.
    apply (f_equal (fun l => (Response (JArr (map _ l)) 200, db))).
    apply List.filter_ext. intros [k o]. unfold matches. simpl.
    rewrite ?andb_true_r. reflexivity.
  - rewrite (search_query _ (Filters.Make None None None (Some id) None));
      try reflexivity;
      [|unfold id_filter; rewrite lookup_singleton_eq, Hg; simpl; now rewrite Hint].
    unfold_handlers. simpl. rewrite Hrow. simpl. unfold filter_by.
    apply (f_equal (fun l => (Response (JArr (map _ l)) 200, db))).
    apply List.filter_ext. intros [k o]. unfold matches. simpl.
    rewrite ?andb_true_r. reflexivity.
  - rewrite (search_query _ (Filters.Make None None None None (Some id)));
      try reflexivity;
      [|unfold id_filter; rewrite lookup_singleton_eq, Hg; simpl; now rewrite Hint].
    unfold_handlers. simpl. rewrite Hrow. simpl. unfold filter_by.
    apply (f_equal (fun l => (Response (JArr (map _ l)) 200, db))).
    apply List.filter_ext. intros [k o]. unfold matches. simpl.
    rewrite ?andb_true_r. reflexivity.
Qed.

(** ** The direct readers *)

Lemma last_segment_plain (s : string) :
  DirectApi.has_slash s = false -> DirectApi.last_segment s = s.
Proof. destruct s as [|c s]; [reflexivity|]. cbn [DirectApi.last_segment]. now intros ->. Qed.

Lemma has_slash_app (p t : string) :
  DirectApi.has_slash (p +:+ String "/" t) = true.
Proof.
  induction p as [|c p IH]; unfold String.append; fold String.append;
    cbn [DirectApi.has_slash]; [reflexivity|].
  rewrite IH. apply orb_true_r.
Qed.

Lemma last_segment_app (p t : string) :
  DirectApi.has_slash t = false ->
  DirectApi.last_segment (p +:+ String "/" t) = t.
Proof.
  intros Ht. induction p as [|c p IH]; unfold String.append; fold String.append.
  - cbn. now apply last_segment_plain.
  - cbn [DirectApi.last_segment DirectApi.has_slash].
    rewrite has_slash_app, orb_true_r. exact IH.
Qed.

Lemma prefix_empty (s : string) : String.prefix "" s = true.
Proof. destruct s; reflexivity. Qed.

(** X19. Through the direct API the listing path of an entity is answered
    what the REST listing answers, status and body. *)
Theorem direct_listing (e : Server.entity) (db : database) :
  DirectApi.api_request "GET" (listing_path e) db = Some (serve (Server.LIST e) db).1.
Proof. destruct e; reflexivity. Qed.

(** X20. Through the direct API the path of a row is answered what the REST
    GET answers when the row is stored; when it is not, the direct API
    answers 200 with a null body where the REST GET answers 404. *)
Theorem direct_row (e : Server.entity) (s : string) (id : Z) (db : database) :
  DirectApi.has_slash s = false -> int s = Some id ->
  let r := DirectApi.api_request "GET" (listing_path e +:+ "/" +:+ s) db in
  (stored e id db -> r = Some (serve (Server.GET e id) db).1)
  /\ (~ stored e id db ->
      r = Some (Response JNull 200) /\ status (serve (Server.GET e id) db).1 = 404).
Proof.
  intros Hs Hint. cbv zeta.
  destruct e; unfold DirectApi.api_request, DirectApi.row_of;
    cbv [String.append listing_path]; cbn;
    rewrite prefix_empty, ?Hs; cbn; rewrite (last_segment_plain s Hs), Hint;
    unfold DirectApi.get_type, DirectApi.get_property, DirectApi.get_place,
      DirectApi.get_instrument, DirectApi.get_object, DirectApi.get_observation;
    unfold_handlers; simpl;
    match goal with |- context [?m !! id] => destruct (m !! id) as [row|] eqn:E end;
    (split; [intros Hst | intros Hn]);
    solve [ reflexivity
          | split; reflexivity
          | exfalso; apply Hn; eexists; reflexivity
          | destruct Hst as [? Hst]; discriminate Hst ].
Qed.

(** X21. The direct API serves nothing but the twelve reading paths: any
    method other than GET is answered 404 with an empty list, whatever
    the path, and a path below a row path whose last segment is not a
    number, such as a relationship listing or the search, ends in the
    [ValueError] of [int]. *)
Theorem direct_unserved (method : string) (e : Server.entity) (s t : string)
    (db : database) :
  (method <> "GET" ->
   DirectApi.api_request method s db = Some (Response (JArr []) 404))
  /\ (DirectApi.has_slash t = false -> int t = None ->
      DirectApi.api_request "GET" (listing_path e +:+ "/" +:+ s +:+ "/" +:+ t) db
      = None).
Proof.
  split.
  - intros Hm%String.eqb_neq. unfold DirectApi.api_request. now rewrite Hm.
  - intros Ht Hint.
    pose proof (last_segment_app s t Ht) as Hu.
    change (String "/" t) with ("/" +:+ t) in Hu.
    generalize dependent (s +:+ "/" +:+ t). intros u Hu.
    destruct e; unfold DirectApi.api_request, DirectApi.row_of;
      cbv [String.append listing_path]; cbn;
      rewrite prefix_empty, Hu, Hint; reflexivity.
Qed.

(** ** The client library *)

Lemma is_not_none_false (x : json) : Client.is_not_none x = false -> x = JNull.
Proof. destruct x; simpl; congruence. Qed.

Ltac evaluate_keys :=
  repeat match goal with
    | |- context [has ?k ?d] =>
        let b := eval vm_compute in (has k d) in change (has k d) with b
    | |- context [get ?k ?d] =>
        let v := eval vm_compute in (get k d) in change (get k d) with v
    end.

Ltac evaluate_id :=
  match goal with
  | |- context [@lookup string json _ _ "id" ?d] =>
      let v := eval vm_compute in (d !! "id") in change (d !! "id") with v
  end.

(** X22. The client's removal returns [True] exactly for a stored row that
    nothing refers to, and the row is then gone; for a missing row and
    for a row in use it raises with the server's status and message, and
    the store is as it was. *)
Theorem client_delete (e : Server.entity) (id : Z) (db : database) :
  (~ stored e id db ->
   Client.delete e id db = (Client.Raised 404 (JStr (not_found_message e)), db))
  /\ (stored e id db -> in_use e id db = false ->
      Client.delete e id db = (Client.Returned (JBool true), deleted e id db))
  /\ (forall p, e = entity_of p -> stored e id db -> in_use e id db = true ->
      Client.delete e id db = (Client.Raised 400 (JStr (in_use_message p)), db)).
Proof.
  unfold Client.delete. split; [|split].
  - intros Hst. now rewrite (delete_missing e id db Hst).
  - intros Hst Hu. now rewrite (delete_unused e id db Hst Hu).
  - intros p -> Hst Hu. now rewrite (delete_in_use p id db Hst Hu).
Qed.

(** X23. The client's update of a Place sends the arguments that are not
    [None]: the stored row takes those and keeps every other field, and
    the call returns the updated representation.  With every argument
    [None] the request carries an empty object, the server answers 400
    and the call raises. *)
Theorem client_update_place (place_id : Z) (name latitude longitude altitude tz : json)
    (row : Place) (db : database) :
  places db !! place_id = Some row ->
  Client.update_place place_id name latitude longitude altitude tz db
  = if Client.is_not_none name || Client.is_not_none latitude
       || Client.is_not_none longitude || Client.is_not_none altitude
       || Client.is_not_none tz
    then
      let row' := mkPlace (given_or name (Place_name row))
                          (given_or latitude (lat row))
                          (given_or longitude (lon row))
                          (given_or altitude (alt row))
                          (given_or tz (timezone row)) in
      (Client.Returned (Resources.Place_dict place_id row'),
       with_rows Places (<[place_id := row']> (places db)) db)
    else (Client.Raised 400 (JStr "No input data provided"), db).
Proof.
  intros Hrow.
  assert (Hst : stored Server.EPlace place_id db) by (simpl; eauto).
  unfold Client.update_place, Client.call, Client.set_if_given, given_or.
  destruct (Client.is_not_none name), (Client.is_not_none latitude),
    (Client.is_not_none longitude), (Client.is_not_none altitude),
    (Client.is_not_none tz); cbv zeta; cbn [orb];
    try (rewrite put_without_body by (exact Hst || reflexivity); reflexivity);
    (rewrite put_run
       by (split; [exact Hst | split; [apply insert_non_empty | exact I]]));
    unfold updated; rewrite (alter_stored _ _ _ row Hrow);
    unfold serve, run, Server.GET, Resources.PlaceResource_get, bind, query,
      query_get, respond; simpl; rewrite lookup_insert_eq; simpl;
    unfold put_place_row; evaluate_keys; reflexivity.
Qed.

(** X24. An Object created through the client with a designation is read
    back, through the client, with that designation under the key
    [desination], and with the name, type and props that were passed;
    an argument left [None] reads back as null. *)
Theorem client_create_object (name type_id designation props : json)
    (db : database) :
  is_Some (query_get_json (types db) type_id) ->
  let id := fresh_id (objects db) in
  exists j db',
    Client.create_object name type_id designation props JNull db
    = (Client.Returned j, db')
    /\ Client.get_object id db' = (Client.Returned j, db')
    /\ json_field "id" j = Some (JNum id)
    /\ json_field "name" j = Some name
    /\ json_field "desination" j = Some designation
    /\ json_field "type" j = Some type_id
    /\ json_field "props" j = Some props.
Proof.
  intros Ht. cbv zeta.
  unfold Client.create_object, Client.get_object, Client.call, Client.set_if_given.
  cbn [Client.is_not_none].
  destruct (Client.is_not_none designation) eqn:Ed;
    [|apply is_not_none_false in Ed; subst designation];
    (destruct (Client.is_not_none props) eqn:Ep;
       [|apply is_not_none_false in Ep; subst props]);
    cbv zeta;
    (rewrite post_run
       by (split;
           [repeat (apply Forall_cons; split;
                    [apply has_is_Some; evaluate_keys; reflexivity|]);
            constructor
           | split; [cbv beta iota; evaluate_id; exact I
                    | cbv beta iota; evaluate_keys; exact Ht]]));
    do 2 eexists; (split; [reflexivity|]);
    unfold serve, run, Server.GET, Resources.ObjectResource_get, bind, query,
      query_get, respond, created, assigned_id, representation; simpl;
    evaluate_id; rewrite lookup_insert_eq; simpl; evaluate_keys;
    repeat split; reflexivity.
Qed.

End properties.

Section astronomy_api_properties.
Context `{PyLib} `{AstronomyApi.Marshmallow}.

(** In [astronomy_api.py] the three relationship endpoints never look the
    parent up: they answer 200 with the matching Observations, whether or
    not the parent is stored. *)
Lemma relationship_unchecked (id : Z) (db : database) :
  serve (AstronomyApi.ObjectObservationsResource_get id) db
  = (Response (JArr (map (fun kr => AstronomyApi.observation_schema_dump kr.1 kr.2)
                         (filter_by Observation_object id (observations db)))) 200,
     db)
  /\ serve (AstronomyApi.PlaceObservationsResource_get id) db
     = (Response (JArr (map (fun kr => AstronomyApi.observation_schema_dump kr.1 kr.2)
                            (filter_by Observation_place id (observations db)))) 200,
        db)
  /\ serve (AstronomyApi.InstrumentObservationsResource_get id) db
     = (Response (JArr (map (fun kr => AstronomyApi.observation_schema_dump kr.1 kr.2)
                            (filter_by Observation_instrument id (observations db)))) 200,
        db).
Proof. repeat split. Qed.

(** In [astronomy_api.py] a body that the schema rejects is answered with
    422 and nothing is stored. *)
Lemma schema_rejection_422 (json_data : payload) (e : string) (db : database) :
  json_data <> ∅ ->
  AstronomyApi.load AstronomyApi.TypeSchema json_data = Some e ->
  serve (AstronomyApi.TypeListResource_post (Some json_data)) db
  = (Response (message e) 422, db).
Proof.
  intros Hne%py_not_nonempty He.
  unfold serve, run, AstronomyApi.TypeListResource_post.
  rewrite Hne. simpl. rewrite He. reflexivity.
Qed.





End astronomy_api_properties.

(** * Concrete runs on the seeded database *)

#[local] Existing Instance PyRef.pylib.
#[local] Existing Instance PyRef.marshmallow.

Example fromisoformat_utc :
  PyRef.fromisoformat "2025-01-01T00:00:00+00:00"
  = Some (Datetime 2025 1 1 0 0 0 0 (Some 0)).
Proof. reflexivity. Qed.

Example isoformat_utc :
  PyRef.isoformat (Datetime 2025 1 1 0 0 0 0 (Some 0)) = "2025-01-01T00:00:00+00:00".
Proof. reflexivity. Qed.

Example fromisoformat_rejects : PyRef.fromisoformat "yesterday" = None.
Proof. reflexivity. Qed.

Example int_reads :
  PyRef.int "12" = Some 12 /\ PyRef.int "-3" = Some (-3) /\ PyRef.int "1x" = None.
Proof. repeat split; reflexivity. Qed.

Lemma delete_parent_witness :
  (stored Server.EType 1 Seed.db /\ referenced PType 1 Seed.db
   /\ status (serve (Server.DELETE Server.EType 1) Seed.db).1 = 400
   /\ (serve (Server.DELETE Server.EType 1) Seed.db).2 = Seed.db)
  /\ (stored Server.EType 3 Seed.db /\ ~ referenced PType 3 Seed.db
      /\ status (serve (Server.DELETE Server.EType 3) Seed.db).1 = 204).
Proof.
  assert (S1 : stored Server.EType 1 Seed.db) by (vm_compute; eauto).
  assert (R1 : referenced PType 1 Seed.db).
  { exists 1, (mkObject (JStr "Andromeda Galaxy") (JStr "M31") (JNum 1) JNull).
    split; reflexivity. }
  assert (S3 : stored Server.EType 3 Seed.db) by (vm_compute; eauto).
  assert (R3 : ~ referenced PType 3 Seed.db).
  { intros (k & o & Hk & Ho). simpl in Hk.
    apply lookup_insert_Some in Hk as [[_ <-]|[_ Hk]]; [discriminate|].
    apply lookup_insert_Some in Hk as [[_ <-]|[_ Hk]]; [discriminate|].
    rewrite lookup_empty in Hk. discriminate. }
  destruct (delete_parent PType 1 Seed.db) as (_ & Hin_use & _).
  destruct (delete_parent PType 3 Seed.db) as (_ & _ & Hfree).
  destruct (Hin_use S1 R1) as (? & ? & _). destruct (Hfree S3 R3) as (? & _).
  repeat split; assumption.
Defined.

Lemma failed_write_keeps_store_witness :
  let post_body : payload := {[ "name" := JStr "Vega"; "type" := JNum 999 ]} in
  let put_body : payload := {[ "object" := JNum 2; "datetime" := JStr "tomorrow" ]} in
  (status (serve (Server.POST Server.EObject (Some post_body)) Seed.db).1 = 400
   /\ (serve (Server.POST Server.EObject (Some post_body)) Seed.db).2 = Seed.db)
  /\ (status (serve (Server.PUT Server.EObservation 1 (Some put_body)) Seed.db).1 = 400
      /\ (serve (Server.PUT Server.EObservation 1 (Some put_body)) Seed.db).2 = Seed.db).
Proof.
  intros post_body put_body.
  destruct failed_write_keeps_store as (_ & Hpost & Hput). split.
  - apply (Hpost post_body (JNum 999)); reflexivity.
  - apply (Hput 1 put_body (JStr "tomorrow")); [vm_compute; eauto | reflexivity..].
Defined.

(** The rejected PUT did change the object inside its session; the
    change is dropped with the session. *)
Example rejected_put_dirty_session :
  let put_body : payload := {[ "object" := JNum 2; "datetime" := JStr "tomorrow" ]} in
  let s := (run (Server.PUT Server.EObservation 1 (Some put_body))
                (Session Seed.db Seed.db)).2 in
  Observation_object <$> observations (pending s) !! 1 = Some (JNum 2)
  /\ Observation_object <$> observations (committed s) !! 1 = Some (JNum 1).
Proof. split; reflexivity. Qed.


(** Three seeded observations, two of object 1, one of them before the
    start date: the search finds one row. *)
Example search_scenario :
  let args : gmap string string :=
    {[ "start_date" := "2025-01-02T00:00:00"; "object_id" := "1" ]} in
  (serve (Resources.ObservationSearchResource_get args) Seed.db).1
  = Response
      (JArr [JObj [("id", JNum 1); ("object", JNum 1); ("place", JNum 1);
                   ("instrument", JNum 1); ("datetime", JStr "2025-01-03T21:00:00");
                   ("observation", JStr "Clear spiral structure visible.");
                   ("prop1", JNum 1); ("prop1value", JStr "3.4")]]) 200.
Proof. vm_compute. reflexivity. Qed.



(** The stored instant comes back as ["2025-01-01T00:00:00+00:00"]. *)
Example posted_observation_get :
  let r := serve (Server.POST Server.EObservation (Some Seed.posted_observation)) Seed.db in
  json_field "id" (body r.1) = Some (JNum 4)
  /\ json_field "datetime" (body (serve (Server.GET Server.EObservation 4) r.2).1)
     = Some (JStr "2025-01-01T00:00:00+00:00").
Proof. split; vm_compute; reflexivity. Qed.







(** C6. GET /api/objects/999/observations, with no Object 999 stored:
    [astronomy_api.py] answers 200 with an empty list, where
    [resources.py] answers 404. *)
Theorem relationship_of_missing_parent :
  ~ stored Server.EObject 999 Seed.db
  /\ serve (AstronomyApi.ObjectObservationsResource_get 999) Seed.db
     = (Response (JArr []) 200, Seed.db)
  /\ serve (Resources.ObjectObservationsResource_get 999) Seed.db
     = (Response (message "Object not found") 404, Seed.db).
Proof.
  split; [|split; reflexivity].
  intros [o Ho]. vm_compute in Ho. discriminate.
Qed.



(** * Further runs on the seeded database *)

(** ** The seeded database keeps its references *)

Ltac seeded_row Hk :=
  simpl in Hk;
  repeat (apply lookup_insert_Some in Hk as [[_ <-]|[_ Hk]];
          [repeat split; try (intros _); vm_compute; eauto|]);
  rewrite lookup_empty in Hk; discriminate Hk.

Lemma seed_integrity : integrity Seed.db.
Proof. split; intros k o Hk; seeded_row Hk. Qed.

Lemma posted_type_valid : valid Server.EType Seed.db Seed.posted_type.
Proof.
  split; [|split; [|exact I]].
  - repeat constructor; vm_compute; eauto.
  - vm_compute. intros [? [=]].
Qed.

Lemma updated_observation_valid :
  valid_update Server.EObservation 1 Seed.db Seed.updated_observation.
Proof.
  split; [vm_compute; eauto|]. split; [apply insert_non_empty|].
  repeat split; intros Hh; vm_compute in Hh; discriminate Hh.
Qed.

Lemma writes_keep_integrity_witness :
  integrity Seed.db
  /\ integrity
       (serve (Server.POST Server.EObservation (Some Seed.posted_observation)) Seed.db).2
  /\ integrity
       (serve (Server.PUT Server.EObservation 1 (Some Seed.misplaced_observation))
              Seed.db).2
  /\ integrity (serve (Server.DELETE Server.EType 3) Seed.db).2.
Proof.
  split; [exact seed_integrity|].
  destruct (writes_keep_integrity Seed.db seed_integrity Server.EObservation 1
              (Some Seed.posted_observation)) as (Hpost & _ & _).
  destruct (writes_keep_integrity Seed.db seed_integrity Server.EObservation 1
              (Some Seed.misplaced_observation)) as (_ & Hput & _).
  destruct (writes_keep_integrity Seed.db seed_integrity Server.EType 3 None)
    as (_ & _ & Hdelete).
  split; [exact Hpost|]. split; [exact Hput | exact Hdelete].
Defined.

Lemma update_twice_witness :
  valid_update Server.EObservation 1 Seed.db Seed.updated_observation
  /\ (let r := serve (Server.PUT Server.EObservation 1 (Some Seed.updated_observation))
                     Seed.db in
      status r.1 = 200
      /\ serve (Server.PUT Server.EObservation 1 (Some Seed.updated_observation)) r.2
         = r).
Proof.
  split; [exact updated_observation_valid|].
  exact (update_twice Server.EObservation 1 Seed.db Seed.updated_observation
           updated_observation_valid).
Defined.

Lemma creation_undone_witness :
  integrity Seed.db /\ valid Server.EType Seed.db Seed.posted_type
  /\ assigned_id Server.EType Seed.db Seed.posted_type = 7
  /\ serve (Server.DELETE Server.EType 7)
           (serve (Server.POST Server.EType (Some Seed.posted_type)) Seed.db).2
     = (Response (message "Type deleted successfully") 204, Seed.db).
Proof.
  split; [exact seed_integrity|]. split; [exact posted_type_valid|].
  split; [reflexivity|].
  apply (creation_undone Server.EType Seed.db Seed.posted_type seed_integrity
           posted_type_valid).
  vm_compute. discriminate.
Defined.

Lemma write_keeps_other_rows_witness :
  (serve (Server.GET Server.EObject 1)
         (serve (Server.DELETE Server.EType 3) Seed.db).2).1
  = (serve (Server.GET Server.EObject 1) Seed.db).1
  /\ (serve (Server.GET Server.EType 1)
            (serve (Server.PUT Server.EType 3 (Some Seed.numeric_name)) Seed.db).2).1
     = (serve (Server.GET Server.EType 1) Seed.db).1.
Proof.
  assert (Hobject : (Server.EObject, 1) <> (Server.EType, 3)) by discriminate.
  assert (Htype : (Server.EType, 1) <> (Server.EType, 3)) by (intros [=]).
  destruct (write_keeps_other_rows Server.EType Server.EObject 3 1 None Seed.db
              Hobject) as (_ & Hdelete & _).
  destruct (write_keeps_other_rows Server.EType Server.EType 3 1
              (Some Seed.numeric_name) Seed.db Htype) as (Hput & _).
  split; [exact Hdelete | exact Hput].
Defined.

Lemma relationship_is_search_witness :
  stored Server.EObject 1 Seed.db
  /\ serve (Resources.ObjectObservationsResource_get 1) Seed.db
     = serve (Resources.ObservationSearchResource_get {[ "object_id" := "1" ]}) Seed.db.
Proof.
  assert (Hst : stored Server.EObject 1 Seed.db) by (vm_compute; eauto).
  split; [exact Hst|].
  apply (relationship_is_search 1 "1" Seed.db); [discriminate | reflexivity | exact Hst].
Defined.

Lemma direct_row_witness :
  DirectApi.api_request "GET" "/api/places/2" Seed.db
  = Some (serve (Server.GET Server.EPlace 2) Seed.db).1
  /\ DirectApi.api_request "GET" "/api/places/9" Seed.db = Some (Response JNull 200)
  /\ status (serve (Server.GET Server.EPlace 9) Seed.db).1 = 404.
Proof.
  split.
  - apply (direct_row Server.EPlace "2" 2 Seed.db); [reflexivity..|].
    vm_compute. eauto.
  - apply (direct_row Server.EPlace "9" 9 Seed.db); [reflexivity..|].
    vm_compute. intros [? [=]].
Defined.

Lemma client_update_place_witness :
  Client.update_place 1 JNull JNull JNull (JStr "47m") JNull Seed.db
  = (Client.Returned
       (JObj [("id", JNum 1); ("name", JStr "Royal Observatory Greenwich");
              ("lat", JStr "51.4778"); ("lon", JStr "0.0015"); ("alt", JStr "47m");
              ("timezone", JStr "Europe/London")]),
     with_rows Places
       (<[1 := mkPlace (JStr "Royal Observatory Greenwich") (JStr "51.4778")
                       (JStr "0.0015") (JStr "47m") (JStr "Europe/London")]>
          (places Seed.db)) Seed.db).
Proof.
  exact (client_update_place 1 JNull JNull JNull (JStr "47m") JNull
           (mkPlace (JStr "Royal Observatory Greenwich") (JStr "51.4778")
                    (JStr "0.0015") (JStr "45m") (JStr "Europe/London"))
           Seed.db eq_refl).
Defined.

Lemma client_create_object_witness :
  exists j db',
    Client.create_object (JStr "Vega") (JNum 3) (JStr "Alpha Lyrae") JNull JNull Seed.db
    = (Client.Returned j, db')
    /\ Client.get_object 3 db' = (Client.Returned j, db')
    /\ json_field "id" j = Some (JNum 3)
    /\ json_field "name" j = Some (JStr "Vega")
    /\ json_field "desination" j = Some (JStr "Alpha Lyrae")
    /\ json_field "type" j = Some (JNum 3)
    /\ json_field "props" j = Some JNull.
Proof.
  apply (client_create_object (JStr "Vega") (JNum 3) (JStr "Alpha Lyrae") JNull Seed.db).
  vm_compute. eauto.
Defined.


Lemma resources_error_body_witness :
  is_2xx (status (serve (Server.DELETE Server.EType 1) Seed.db).1) = false
  /\ exists text, body (serve (Server.DELETE Server.EType 1) Seed.db).1 = message text.
Proof.
  split; [reflexivity|].
  apply (resources_error_body Server.EType 1 None Seed.db (Server.DELETE Server.EType 1));
    [simpl; tauto | reflexivity].
Defined.


